(** * Cluster cost aggregation: a shallow embedding of [costmodel/cluster.go]

    The Go file builds four PromQL expressions from a window and an offset,
    runs them against a Prometheus client, and reshapes the answers into
    [Totals].  Everything the file imports from elsewhere (the Prometheus
    client, the cloud provider, the result parser, [time.Parse], the process
    environment, the [%f] formatter of float64) is kept abstract; the
    functions of the file itself are transcribed statement by statement. *)

From Stdlib Require Import Ascii String.
From stdpp Require Import base strings gmap list fin_maps pretty.

(** ** Go values *)

(** A Go [error] is observed by this file only through [err.Error()] and
    built only by [fmt.Errorf]: it is modelled by its message. *)
Definition error : Type := string.

(** A Go result pair [(v, err)] with the convention [err != nil] xor [v]
    usable.  Every failing return of the file is [return nil, err]. *)
Abbreviation result A := (error + A)%type.

(** [[][]string] and [map[string][][]string].  A nil slice and an empty one
    are both the empty list; the file never tells them apart. *)
Abbreviation pairs := (list (list string)).
Abbreviation totalsMap := (gmap string (list (list string))).

(** ** [fmt.Sprintf] restricted to the [%s] verb

    The formats of this file use no other verb.  Arguments are spliced
    without being scanned again; a verb with no argument left and arguments
    with no verb left are rendered as Go renders them. *)

Definition extra (args : list string) : string :=
  match args with
  | [] => ""
  | _ => "%!(EXTRA " +:+ String.concat ", " (map (fun a => "string=" +:+ a) args) +:+ ")"
  end.

Fixpoint Sprintf (format : string) (args : list string) : string :=
  match format with
  | EmptyString => extra args
  | String c rest =>
      match rest with
      | String d rest' =>
          if (Ascii.eqb c "%"%char && Ascii.eqb d "s"%char)%bool then
            match args with
            | a :: args' => a +:+ Sprintf rest' args'
            | [] => "%!s(MISSING)" +:+ Sprintf rest' []
            end
          else String c (Sprintf rest args)
      | EmptyString => String c (extra args)
      end
  end.

Definition Errorf (format : string) (args : list string) : error :=
  Sprintf format args.

(** ** The query templates (lines 14-34)

    The Go constants are raw string literals spanning several lines; line
    feeds and tabs are written out so that the white space is visible. *)

Definition nl : string := String "010"%char "".
Definition tab : string := String "009"%char "".

Definition queryClusterCores : string :=
  "sum(" +:+ nl +:+
  tab +:+ tab +:+ "avg(avg_over_time(kube_node_status_capacity_cpu_cores[%s] %s)) by (node, cluster_id) * avg(avg_over_time(node_cpu_hourly_cost[%s] %s)) by (node, cluster_id) * 730 +" +:+ nl +:+
  tab +:+ tab +:+ "avg(avg_over_time(node_gpu_hourly_cost[%s] %s)) by (node, cluster_id) * 730" +:+ nl +:+
  tab +:+ "  ) by (cluster_id)".

Definition queryClusterRAM : string :=
  "sum(" +:+ nl +:+
  tab +:+ tab +:+ "avg(avg_over_time(kube_node_status_capacity_memory_bytes[%s] %s)) by (node, cluster_id) / 1024 / 1024 / 1024 * avg(avg_over_time(node_ram_hourly_cost[%s] %s)) by (node, cluster_id) * 730" +:+ nl +:+
  tab +:+ "  ) by (cluster_id)".

Definition queryStorage : string :=
  "sum(" +:+ nl +:+
  tab +:+ tab +:+ "avg(avg_over_time(pv_hourly_cost[%s] %s)) by (persistentvolume, cluster_id) * 730 " +:+ nl +:+
  tab +:+ tab +:+ "* avg(avg_over_time(kube_persistentvolume_capacity_bytes[%s] %s)) by (persistentvolume, cluster_id) / 1024 / 1024 / 1024" +:+ nl +:+
  tab +:+ "  ) by (cluster_id) %s".

Definition queryTotal : string :=
  "sum(avg(node_total_hourly_cost) by (node, cluster_id)) * 730 +" +:+ nl +:+
  tab +:+ "  sum(" +:+ nl +:+
  tab +:+ tab +:+ "avg(avg_over_time(pv_hourly_cost[1h])) by (persistentvolume, cluster_id) * 730 " +:+ nl +:+
  tab +:+ tab +:+ "* avg(avg_over_time(kube_persistentvolume_capacity_bytes[1h])) by (persistentvolume, cluster_id) / 1024 / 1024 / 1024" +:+ nl +:+
  tab +:+ "  ) by (cluster_id) %s".

(** [layout := "2006-01-02T15:04:05.000Z"] (line 259). *)
Definition timeLayout : string := "2006-01-02T15:04:05.000Z".

(** [type Totals struct] (lines 36-41). *)
Record Totals : Type := mkTotals {
  TotalCost : pairs;
  CPUCost : pairs;
  MemCost : pairs;
  StorageCost : pairs;
}.

(** [&Totals{}] *)
Definition emptyTotals : Totals := mkTotals [] [] [] [].

(** The four cost dimensions and the field of [Totals] each one fills. *)
Inductive Dimension : Type := Cores | RAM | Storage | Total.

Definition field (d : Dimension) (t : Totals) : pairs :=
  match d with
  | Cores => CPUCost t
  | RAM => MemCost t
  | Storage => StorageCost t
  | Total => TotalCost t
  end.

(** Substring test, used to state what a query string contains. *)
Fixpoint contains (sub s : string) : bool :=
  if String.prefix sub s then true
  else match s with
       | EmptyString => false
       | String _ s' => contains sub s'
       end.

(** ** Series, as the result parser hands them over *)

Section Series.
Context {float64 : Type}.

(** Modelled from the spec: the type [Vector] is declared outside
    [cluster.go]; a sample is a timestamp and a value, both float64. *)
Record Vector : Type := mkVector {
  Timestamp : float64;
  Value : float64;
}.

(** Modelled from the spec: the type [QueryResult] is declared outside
    [cluster.go]; a series is a label set with unique keys and an ordered
    sequence of samples. *)
Record QueryResult : Type := mkQueryResult {
  Metric : gmap string string;
  Values : list Vector;
}.

(** Modelled from the spec: the method [GetString] is declared outside
    [cluster.go]; it extracts a label verbatim and yields the empty string
    for an absent label.  Its second result, an error, is discarded at its
    only call site ([clusterID, _ := ...]) and is left out. *)
Definition GetString (r : QueryResult) (field : string) : string :=
  default "" (Metric r !! field).
End Series.
Arguments Vector : clear implicits.
Arguments QueryResult : clear implicits.

(** ** Effects: collaborator calls and log records, in program order *)

(** The severities of klog.  [Infof] writes at the first, [Warningf] at the
    second. *)
Inductive Severity : Type :=
| InfoSeverity | WarningSeverity | ErrorSeverity | FatalSeverity.

Section Effects.
Context {time duration : Type}.

Inductive Event : Type :=
| EvGetLocalStorageQuery (offset : string)           (* cloud.GetLocalStorageQuery *)
| EvQuery (query : string)                           (* Query(cli, query) *)
| EvQueryRange (query : string) (start stop : time) (step : duration)
                                                     (* QueryRange(cli, ...) *)
| EvInfof (verbosity : nat) (format : string) (args : list string).
                                                     (* klog.V(n).Infof *)

(** A computation yields the events it performed and either the error it
    returned or its value. *)
Definition M (A : Type) : Type := list Event * result A.

Definition ret {A} (a : A) : M A := ([], inr a).

Definition bind {A B} (c : M A) (k : A -> M B) : M B :=
  match c with
  | (t, inl e) => (t, inl e)
  | (t, inr a) => let '(t', r) := k a in (t ++ t', r)
  end.

(** [v, err := f(...)] of a pure function, followed by
    [if err != nil { return nil, err }]. *)
Definition lift {A} (r : result A) : M A := ([], r).

(** [if err != nil { return nil, h(err) }] around a call. *)
Definition onError {A} (c : M A) (h : error -> error) : M A :=
  match c with
  | (t, inl e) => (t, inl (h e))
  | (t, inr a) => (t, inr a)
  end.

Definition Infof (verbosity : nat) (format : string) (args : list string) : M unit :=
  ([EvInfof verbosity format args], inr tt).

Definition trace {A} (c : M A) : list Event := fst c.
Definition outcome {A} (c : M A) : result A := snd c.

(** Calls that reached the metrics backend. *)
Definition isBackendCall (ev : Event) : bool :=
  match ev with
  | EvQuery _ | EvQueryRange _ _ _ _ => true
  | _ => false
  end.

Definition backendCalls (t : list Event) : nat :=
  length (filter (fun ev => isBackendCall ev = true) t).

(** Arguments handed to the cloud provider. *)
Definition providerArgs (t : list Event) : list string :=
  omap (fun ev => match ev with EvGetLocalStorageQuery o => Some o | _ => None end) t.

(** The calls that reached the metrics backend, in program order, and
    computations that make none. *)
Definition backendEvents (t : list Event) : list Event :=
  filter (fun ev => isBackendCall ev = true) t.

(** The arguments of the [klog.V(4).Infof] records, in program order. *)
Definition debugArgs (t : list Event) : list (list string) :=
  omap (fun ev => match ev with
                  | EvInfof 4 _ args => Some args
                  | _ => None
                  end) t.

(** The severity a log record is written at: every record of the file comes
    from [klog.V(n).Infof]. *)
Definition severityOf (ev : Event) : option Severity :=
  match ev with
  | EvInfof _ _ _ => Some InfoSeverity
  | _ => None
  end.

(** The text of a log record: [Infof] renders its format with its
    arguments. *)
Definition rendered (ev : Event) : option string :=
  match ev with
  | EvInfof _ format args => Some (Sprintf format args)
  | _ => None
  end.

(** Computations that never call the cloud provider. *)
Definition noProviderCall {A} (c : M A) : Prop := providerArgs (trace c) = [].

Definition noBackendCall {A} (c : M A) : Prop := backendEvents (trace c) = [].

(** [prometheusClient.Client], seen through [Query] and [QueryRange], and
    [costAnalyzerCloud.Provider], seen through [GetLocalStorageQuery]. *)
Record Client {raw : Type} : Type := mkClient {
  doQuery : string -> result raw;
  doQueryRange : string -> time -> time -> duration -> result raw;
}.

Record Provider : Type := mkProvider {
  doGetLocalStorageQuery : string -> result string;
}.

Definition Query {raw} (cli : @Client raw) (query : string) : M raw :=
  ([EvQuery query], doQuery cli query).

Definition QueryRange {raw} (cli : @Client raw) (query : string)
    (start stop : time) (step : duration) : M raw :=
  ([EvQueryRange query start stop step], doQueryRange cli query start stop step).

Definition GetLocalStorageQuery (cloud : Provider) (offset : string) : M string :=
  ([EvGetLocalStorageQuery offset], doGetLocalStorageQuery cloud offset).
End Effects.
Arguments Event : clear implicits.
Arguments M : clear implicits.
Arguments Client : clear implicits.
Arguments mkClient {time duration raw}.

Declare Scope go_scope.
Delimit Scope go_scope with go.
Notation "x <- c ;; k" := (bind c (fun x => k))
  (at level 100, c at next level, right associativity) : go_scope.
Notation "c ;;; k" := (bind c (fun _ => k))
  (at level 100, right associativity) : go_scope.
Open Scope go_scope.

(** ** The functions of [cluster.go] *)

Section Engine.
Context {float64 raw time duration : Type}.

(** What the file takes from its package, from the Go library and from
    the process: [fmt.Sprintf("%f", x)], [NewQueryResults], [time.Parse],
    [time.ParseDuration], [os.Getenv] and the constant [clusterIDKey]. *)
Variable Sprintf_f : float64 -> string.
Variable NewQueryResults : raw -> result (list (QueryResult float64)).
Variable time_Parse : string -> string -> result time.
Variable time_ParseDuration : string -> result duration.
Variable Getenv : string -> string.
Variable clusterIDKey : string.

Local Abbreviation M := (M time duration).
Local Abbreviation Client := (Client time duration raw).

(** [[]string{d0, d1}] of a sample (lines 56-61 and 89-94). *)
Definition toAppend (value : Vector float64) : list string :=
  let d0 := Sprintf_f (Timestamp value) in
  let d1 := Sprintf_f (Value value) in
  [d0; d1].

(** [resultToTotals] (lines 43-65). *)
Definition resultToTotals (qr : raw) : M pairs :=
  results <- lift (NewQueryResults qr) ;;
  match results with
  | [] => lift (inl (Errorf "Not enough data available in the selected time range" []))
  | result :: _ =>
      let totals := foldl (fun totals value => totals ++ [toAppend value]) [] (Values result) in
      ret totals
  end.

(** One iteration of the loop of [resultToTotal] (lines 76-100).

    In the first branch of the last [if], [t] is a copy of the slice
    header stored in the map; [t = append(t, toAppend)] rebinds that local
    copy and nothing is stored back, so the map keeps the header it had,
    with its length and with the elements below that length untouched. *)
Definition resultToTotal_step (defaultClusterID : string)
    (toReturn : totalsMap) (result : QueryResult float64) : M totalsMap :=
  let clusterID := GetString result "cluster_id" in
  let clusterID := if decide (clusterID = "") then defaultClusterID else clusterID in
  match Values result with
  | [] =>
      Infof 1 "[Warning] Metric values did not contain any valid data." [] ;;;
      ret toReturn
  | value :: _ =>
      match toReturn !! clusterID with
      | Some t =>
          let t := t ++ [toAppend value] in
          ret toReturn
      | None =>
          ret (<[clusterID := [toAppend value]]> toReturn)
      end
  end.

Fixpoint resultToTotal_loop (defaultClusterID : string)
    (results : list (QueryResult float64)) (toReturn : totalsMap) : M totalsMap :=
  match results with
  | [] => ret toReturn
  | result :: results' =>
      toReturn' <- resultToTotal_step defaultClusterID toReturn result ;;
      resultToTotal_loop defaultClusterID results' toReturn'
  end.

(** [resultToTotal] (lines 67-103). *)
Definition resultToTotal (qr : raw) : M totalsMap :=
  let defaultClusterID := Getenv clusterIDKey in
  results <- lift (NewQueryResults qr) ;;
  resultToTotal_loop defaultClusterID results ∅.

(** [if offset != "" { offset = fmt.Sprintf("offset %s", offset) }] *)
Definition rewriteOffset (offset : string) : string :=
  if decide (offset ≠ "") then Sprintf "offset %s" [offset] else offset.

(** [if localStorageQuery != "" { localStorageQuery = fmt.Sprintf("+ %s", ...) }] *)
Definition rewriteLocalStorage (localStorageQuery : string) : string :=
  if decide (localStorageQuery ≠ "") then Sprintf "+ %s" [localStorageQuery]
  else localStorageQuery.

(** The four [fmt.Sprintf] calls that fill the templates. *)
Definition qCores (windowString offset : string) : string :=
  Sprintf queryClusterCores
    [windowString; offset; windowString; offset; windowString; offset].
Definition qRAM (windowString offset : string) : string :=
  Sprintf queryClusterRAM [windowString; offset; windowString; offset].
Definition qStorage (windowString offset localStorageQuery : string) : string :=
  Sprintf queryStorage [windowString; offset; windowString; offset; localStorageQuery].
Definition qTotal (localStorageQuery : string) : string :=
  Sprintf queryTotal [localStorageQuery].

(** The three loops [for clusterID, total := range ...] of
    [ClusterCostsForAllClusters] (lines 146-151, 157-162, 168-173), one per
    field.  Go visits the keys in an unspecified order; the keys being
    distinct, the order does not show in the result. *)
Definition withCPUCost (total : pairs) (t : Totals) : Totals :=
  mkTotals (TotalCost t) total (MemCost t) (StorageCost t).
Definition withMemCost (total : pairs) (t : Totals) : Totals :=
  mkTotals (TotalCost t) (CPUCost t) total (StorageCost t).
Definition withStorageCost (total : pairs) (t : Totals) : Totals :=
  mkTotals (TotalCost t) (CPUCost t) (MemCost t) total.

Definition assignField (setField : pairs -> Totals -> Totals)
    (dimension : totalsMap) (toReturn : gmap string Totals) : gmap string Totals :=
  map_fold (fun clusterID total toReturn =>
              let toReturn :=
                match toReturn !! clusterID with
                | Some _ => toReturn
                | None => <[clusterID := emptyTotals]> toReturn
                end in
              alter (setField total) clusterID toReturn)
           toReturn dimension.

Definition wrapQueryError (query : string) (err : error) : error :=
  Errorf "Error for query %s: %s" [query; err].

(** [ClusterCostsForAllClusters] (lines 106-176). *)
Definition ClusterCostsForAllClusters (cli : Client) (cloud : Provider)
    (windowString offset : string) : M (gmap string Totals) :=
  let offset := rewriteOffset offset in
  localStorageQuery <- GetLocalStorageQuery cloud offset ;;
  let localStorageQuery := rewriteLocalStorage localStorageQuery in
  let qCores := qCores windowString offset in
  let qRAM := qRAM windowString offset in
  let qStorage := qStorage windowString offset localStorageQuery in
  Infof 4 "Running query %s" [qCores] ;;;
  resultClusterCores <- onError (Query cli qCores) (wrapQueryError qCores) ;;
  Infof 4 "Running query %s" [qRAM] ;;;
  resultClusterRAM <- onError (Query cli qRAM) (wrapQueryError qRAM) ;;
  Infof 4 "Running query %s" [qRAM] ;;;
  resultStorage <- onError (Query cli qStorage) (wrapQueryError qStorage) ;;
  let toReturn : gmap string Totals := ∅ in
  coreTotal <- onError (resultToTotal resultClusterCores) (wrapQueryError qCores) ;;
  let toReturn := assignField withCPUCost coreTotal toReturn in
  ramTotal <- onError (resultToTotal resultClusterRAM) (wrapQueryError qRAM) ;;
  let toReturn := assignField withMemCost ramTotal toReturn in
  storageTotal <- onError (resultToTotal resultStorage) (wrapQueryError qStorage) ;;
  let toReturn := assignField withStorageCost storageTotal toReturn in
  ret toReturn.

(** Indexing a Go map by a missing key yields the zero value, a nil slice. *)
Definition index (m : totalsMap) (key : string) : pairs :=
  default [] (m !! key).

(** [ClusterCosts] (lines 179-246). *)
Definition ClusterCosts (cli : Client) (cloud : Provider)
    (windowString offset : string) : M Totals :=
  let offset := rewriteOffset offset in
  localStorageQuery <- GetLocalStorageQuery cloud offset ;;
  let localStorageQuery := rewriteLocalStorage localStorageQuery in
  let qCores := qCores windowString offset in
  let qRAM := qRAM windowString offset in
  let qStorage := qStorage windowString offset localStorageQuery in
  let qTotal := qTotal localStorageQuery in
  resultClusterCores <- Query cli qCores ;;
  resultClusterRAM <- Query cli qRAM ;;
  resultStorage <- Query cli qStorage ;;
  resultTotal <- Query cli qTotal ;;
  coreTotal <- resultToTotal resultClusterCores ;;
  ramTotal <- resultToTotal resultClusterRAM ;;
  storageTotal <- resultToTotal resultStorage ;;
  clusterTotal <- resultToTotal resultTotal ;;
  let defaultClusterID := Getenv clusterIDKey in
  ret (mkTotals (index clusterTotal defaultClusterID)
                (index coreTotal defaultClusterID)
                (index ramTotal defaultClusterID)
                (index storageTotal defaultClusterID)).

(** [v, err := parse(s)] followed by
    [if err != nil { klog.V(1).Infof("Error parsing time " + s + ". Error: " + err.Error()); return nil, err }]
    (lines 261-275). *)
Definition parseOrLog {A} (parsed : result A) (raw_string : string) : M A :=
  match parsed with
  | inl err =>
      Infof 1 ("Error parsing time " +:+ raw_string +:+ ". Error: " +:+ err) [] ;;;
      lift (inl err)
  | inr v => ret v
  end.

(** [ClusterCostsOverTime] (lines 249-333). *)
Definition ClusterCostsOverTime (cli : Client) (cloud : Provider)
    (startString endString windowString offset : string) : M Totals :=
  localStorageQuery <- GetLocalStorageQuery cloud offset ;;
  let localStorageQuery := rewriteLocalStorage localStorageQuery in
  let layout := timeLayout in
  start <- parseOrLog (time_Parse layout startString) startString ;;
  stop <- parseOrLog (time_Parse layout endString) endString ;;
  window <- parseOrLog (time_ParseDuration windowString) windowString ;;
  let offset := rewriteOffset offset in
  let qCores := qCores windowString offset in
  let qRAM := qRAM windowString offset in
  let qStorage := qStorage windowString offset localStorageQuery in
  let qTotal := qTotal localStorageQuery in
  resultClusterCores <- QueryRange cli qCores start stop window ;;
  resultClusterRAM <- QueryRange cli qRAM start stop window ;;
  resultStorage <- QueryRange cli qStorage start stop window ;;
  resultTotal <- QueryRange cli qTotal start stop window ;;
  coreTotal <- resultToTotals resultClusterCores ;;
  ramTotal <- resultToTotals resultClusterRAM ;;
  storageTotal <- resultToTotals resultStorage ;;
  clusterTotal <- resultToTotals resultTotal ;;
  ret (mkTotals clusterTotal coreTotal ramTotal storageTotal).
(** ** Vocabulary of the statements *)

(** The cluster a series is filed under (lines 77-80). *)
Definition clusterOf (defaultClusterID : string) (r : QueryResult float64) : string :=
  if decide (GetString r "cluster_id" = "") then defaultClusterID
  else GetString r "cluster_id".

Definition noSamples (r : QueryResult float64) : bool :=
  match Values r with
  | [] => true
  | _ :: _ => false
  end.

(** The record written for a series without samples (line 84). *)
Definition warning : Event time duration :=
  EvInfof 1 "[Warning] Metric values did not contain any valid data." [].

Definition warnings (results : list (QueryResult float64)) : list (Event time duration) :=
  (fun _ => warning) <$> filter (fun r => noSamples r = true) results.

(** First sample of the first series that has samples and is filed under
    [k]. *)
Fixpoint firstSampleFor (defaultClusterID k : string)
    (results : list (QueryResult float64)) : option (Vector float64) :=
  match results with
  | [] => None
  | r :: results' =>
      match Values r with
      | value :: _ =>
          if decide (clusterOf defaultClusterID r = k) then Some value
          else firstSampleFor defaultClusterID k results'
      | [] => firstSampleFor defaultClusterID k results'
      end
  end.

(** The series that are filed under [k] and have samples, in order. *)
Definition contributing (defaultClusterID k : string)
    (results : list (QueryResult float64)) : list (QueryResult float64) :=
  filter (fun r => noSamples r = false ∧ clusterOf defaultClusterID r = k) results.

(** The map the loop of [resultToTotal] ends with. *)
Definition loopMap (defaultClusterID : string)
    (results : list (QueryResult float64)) (toReturn : totalsMap) : totalsMap :=
  match outcome (resultToTotal_loop defaultClusterID results toReturn) with
  | inr m => m
  | inl _ => toReturn
  end.

(** The series a query yields once executed and parsed. *)
Definition fetch (cli : Client) (query : string) : result (list (QueryResult float64)) :=
  match doQuery cli query with
  | inl err => inl err
  | inr qr => NewQueryResults qr
  end.

Definition fetchRange (cli : Client) (query : string) (start stop : time)
    (step : duration) : result (list (QueryResult float64)) :=
  match doQueryRange cli query start stop step with
  | inl err => inl err
  | inr qr => NewQueryResults qr
  end.

(** A dimension's pipeline in the snapshot calls and in the ranged call:
    the query is executed, then its answer is shaped. *)
Definition shaped (cli : Client) (query : string) : result totalsMap :=
  match doQuery cli query with
  | inl err => inl err
  | inr qr => outcome (resultToTotal qr)
  end.

Definition shapedRange (cli : Client) (query : string) (start stop : time)
    (step : duration) : result pairs :=
  match doQueryRange cli query start stop step with
  | inl err => inl err
  | inr qr => outcome (resultToTotals qr)
  end.

(** The query of a dimension, as the three entry points build it. *)
Definition dimensionQuery (d : Dimension)
    (windowString offset localStorageQuery : string) : string :=
  match d with
  | Cores => qCores windowString offset
  | RAM => qRAM windowString offset
  | Storage => qStorage windowString offset localStorageQuery
  | Total => qTotal localStorageQuery
  end.

(** A series cut down to its first sample. *)
Definition firstSampleOnly (r : QueryResult float64) : QueryResult float64 :=
  mkQueryResult (Metric r) (take 1 (Values r)).

(** The four queries of the snapshot call and of the ranged call, as backend
    events in program order. *)
Definition snapshotQueries (windowString offset localStorageQuery : string)
    : list (Event time duration) :=
  (fun d => EvQuery (dimensionQuery d windowString offset localStorageQuery))
    <$> [Cores; RAM; Storage; Total].

Definition rangeQueries (windowString offset localStorageQuery : string)
    (start stop : time) (step : duration) : list (Event time duration) :=
  (fun d => EvQueryRange (dimensionQuery d windowString offset localStorageQuery)
              start stop step)
    <$> [Cores; RAM; Storage; Total].

(** Every sample of every series has its pair in [totals]. *)
Definition allSamplesKept (results : list (QueryResult float64)) (totals : pairs) : Prop :=
  ∀ r value, r ∈ results → value ∈ Values r → toAppend value ∈ totals.
End Engine.

(** ** A mock backend

    Integer-valued samples (printed by [%f] as the integer followed by six
    zeros), responses that are either malformed or an envelope of series,
    a clock that knows two instants and two durations, and an environment
    whose default cluster is ["cluster-one"]. *)

Module Mock.

Definition Sprintf_f (x : Z) : string := pretty x +:+ ".000000".

Inductive Response : Type :=
| Malformed (reason : error)
| Envelope (series : list (QueryResult Z)).

Definition NewQueryResults (qr : Response) : result (list (QueryResult Z)) :=
  match qr with
  | Malformed reason => inl reason
  | Envelope series => inr series
  end.

Definition time_Parse (layout value : string) : result Z :=
  if String.eqb value "2020-01-01T00:00:00.000Z" then inr 1577836800%Z
  else if String.eqb value "2020-01-02T00:00:00.000Z" then inr 1577923200%Z
  else inl ("parsing time " +:+ value +:+ " as " +:+ layout +:+ ": cannot parse").

Definition time_ParseDuration (s : string) : result Z :=
  if String.eqb s "1h" then inr 3600%Z
  else if String.eqb s "5m" then inr 300%Z
  else inl ("time: invalid duration " +:+ s).

Definition clusterIDKey : string := "CLUSTER_ID".

Definition Getenv (key : string) : string :=
  if String.eqb key "CLUSTER_ID" then "cluster-one" else "".

Definition series (cluster_id : string) (samples : list (Z * Z)) : QueryResult Z :=
  mkQueryResult {[ "cluster_id" := cluster_id ]}
                ((fun s => mkVector s.1 s.2) <$> samples).

Definition unlabelled (samples : list (Z * Z)) : QueryResult Z :=
  mkQueryResult ∅ ((fun s => mkVector s.1 s.2) <$> samples).

(** A client that gives every query the same answer. *)
Definition always (answer : result Response) : Client Z Z Response :=
  mkClient (fun _ => answer) (fun _ _ _ _ => answer).

Definition noLocalStorage : Provider := mkProvider (fun _ => inr "").
Definition brokenProvider : Provider :=
  mkProvider (fun _ => inl "local storage query unavailable").

(** Answers used in the examples. *)
Definition sameCluster : Response :=
  Envelope [unlabelled [(100, 5)%Z]; series "cluster-one" [(100, 7)%Z]].
Definition defaultTwice : Response :=
  Envelope [series "cluster-one" [(100, 5)%Z]; unlabelled [(100, 7)%Z]].
Definition withGap : Response :=
  Envelope [series "A" [(100, 5)%Z]; series "B" []; series "C" [(100, 7)%Z]].
Definition withoutGap : Response :=
  Envelope [series "A" [(100, 5)%Z]; series "C" [(100, 7)%Z]].
Definition twoSeriesRange : Response :=
  Envelope [series "A" [(100, 5)%Z; (160, 6)%Z; (220, 7)%Z]; series "B" [(100, 9)%Z]].
Definition otherCluster : Response :=
  Envelope [series "cluster-two" [(100, 5)%Z]].
Definition mixedClusters : list (QueryResult Z) :=
  [series "cluster-two" [(100, 9)%Z]; unlabelled [(100, 5)%Z; (160, 6)%Z];
   series "cluster-one" [(100, 7)%Z]].
Definition noSeries : Response := Envelope [].
Definition garbled : Response := Malformed "data field not found in query result".

(** A client that fails to parse the memory query's answer only, and one
    that answers the storage query with no series. *)
Definition memoryGarbled : Client Z Z Response :=
  let answer q := if contains "node_ram_hourly_cost" q then inr garbled
                  else inr otherCluster in
  mkClient answer (fun q _ _ _ => answer q).

Definition storageSilent : Client Z Z Response :=
  let answer q := if contains "pv_hourly_cost[5m]" q then inr noSeries
                  else inr (Envelope mixedClusters) in
  mkClient answer (fun q _ _ _ => answer q).

(** A client whose backend rejects the total query and answers the others. *)
Definition totalRejected : Client Z Z Response :=
  let answer q := if contains "node_total_hourly_cost" q
                  then inl "total query rejected"
                  else inr (Envelope mixedClusters) in
  mkClient answer (fun q _ _ _ => answer q).

Definition resultToTotal := resultToTotal (time := Z) (duration := Z)
  Sprintf_f NewQueryResults Getenv clusterIDKey.
Definition resultToTotals := resultToTotals (time := Z) (duration := Z)
  Sprintf_f NewQueryResults.
Definition ClusterCosts := ClusterCosts (time := Z) (duration := Z)
  Sprintf_f NewQueryResults Getenv clusterIDKey.
Definition ClusterCostsForAllClusters := ClusterCostsForAllClusters (time := Z) (duration := Z)
  Sprintf_f NewQueryResults Getenv clusterIDKey.
Definition ClusterCostsOverTime := ClusterCostsOverTime
  Sprintf_f NewQueryResults time_Parse time_ParseDuration.

End Mock.

Example mock_per_cluster :
  Mock.resultToTotal (Mock.Envelope [Mock.series "A" [(100, 5)%Z]; Mock.series "B" [(100, 7)%Z]])
  = ([], inr (<["B" := [["100.000000"; "7.000000"]]]> {[ "A" := [["100.000000"; "5.000000"]] ]})).
Proof. vm_compute. reflexivity. Qed.

Example mock_snapshot :
  outcome (Mock.ClusterCosts (Mock.always (inr (Mock.Envelope [Mock.unlabelled [(100, 5)%Z]])))
             Mock.noLocalStorage "5m" "1h")
  = inr (mkTotals [["100.000000"; "5.000000"]] [["100.000000"; "5.000000"]]
                  [["100.000000"; "5.000000"]] [["100.000000"; "5.000000"]]).
Proof. vm_compute. reflexivity. Qed.

(** * Properties *)

(** ** Strings *)

Lemma prefix_app (s t : string) : String.prefix s (s +:+ t) = true.
Proof.
  induction s as [|c s IH]; simpl.
  - by destruct t.
  - destruct (ascii_dec c c) as [_|Hne]; [exact IH | congruence].
Qed.

Lemma contains_unfold (sub s : string) :
  contains sub s =
  if String.prefix sub s then true
  else match s with
       | EmptyString => false
       | String _ s' => contains sub s'
       end.
Proof. by destruct s. Qed.

Lemma contains_here (s t : string) : contains s (s +:+ t) = true.
Proof. by rewrite contains_unfold, prefix_app. Qed.

Lemma contains_skip (sub pre s : string) :
  contains sub s = true → contains sub (pre +:+ s) = true.
Proof.
  intros Hs. induction pre as [|c pre IH]; [done|].
  change (String c pre +:+ s) with (String c (pre +:+ s)).
  rewrite contains_unfold, IH. by destruct (String.prefix sub _).
Qed.

Lemma contains_inside (sub pre post : string) :
  contains sub (pre +:+ sub +:+ post) = true.
Proof. apply contains_skip, contains_here. Qed.

(** ** Sequencing *)

Section Sequencing.
Context {time duration : Type}.
Local Abbreviation M := (M time duration).

Lemma outcome_bind {A B} (c : M A) (k : A → M B) :
  outcome (bind c k) =
  match outcome c with
  | inl e => inl e
  | inr a => outcome (k a)
  end.
Proof. destruct c as [t [e|a]]; simpl; [done|]. by destruct (k a). Qed.

Lemma trace_bind {A B} (c : M A) (k : A → M B) :
  trace (bind c k) =
  trace c ++ match outcome c with
             | inl _ => []
             | inr a => trace (k a)
             end.
Proof.
  destruct c as [t [e|a]]; simpl; [by rewrite app_nil_r|]. by destruct (k a).
Qed.

Lemma outcome_onError {A} (c : M A) (h : error → error) :
  outcome (onError c h) =
  match outcome c with
  | inl e => inl (h e)
  | inr a => inr a
  end.
Proof. by destruct c as [t [e|a]]. Qed.

Lemma trace_onError {A} (c : M A) (h : error → error) :
  trace (onError c h) = trace c.
Proof. by destruct c as [t [e|a]]. Qed.

Lemma providerArgs_app (t1 t2 : list (Event time duration)) :
  providerArgs (t1 ++ t2) = providerArgs t1 ++ providerArgs t2.
Proof. unfold providerArgs. apply omap_app. Qed.
Lemma outcome_Query {raw} (cli : Client time duration raw) query :
  outcome (Query cli query) = doQuery cli query.
Proof. done. Qed.

Lemma outcome_QueryRange {raw} (cli : Client time duration raw) query start stop step :
  outcome (QueryRange cli query start stop step) = doQueryRange cli query start stop step.
Proof. done. Qed.

Lemma outcome_GetLocalStorageQuery (cloud : Provider) offset :
  outcome (GetLocalStorageQuery (time := time) (duration := duration) cloud offset)
  = doGetLocalStorageQuery cloud offset.
Proof. done. Qed.

Lemma outcome_Infof verbosity format args :
  outcome (Infof (time := time) (duration := duration) verbosity format args) = inr tt.
Proof. done. Qed.

Lemma trace_GetLocalStorageQuery (cloud : Provider) offset :
  trace (GetLocalStorageQuery (time := time) (duration := duration) cloud offset)
  = [EvGetLocalStorageQuery offset].
Proof. done. Qed.

Lemma noProviderCall_Query {raw} (cli : Client time duration raw) query :
  noProviderCall (Query cli query).
Proof. done. Qed.

Lemma noProviderCall_QueryRange {raw} (cli : Client time duration raw) query start stop step :
  noProviderCall (QueryRange cli query start stop step).
Proof. done. Qed.

Lemma noProviderCall_Infof verbosity format args :
  noProviderCall (Infof (time := time) (duration := duration) verbosity format args).
Proof. done. Qed.

Lemma noProviderCall_ret {A} (a : A) :
  noProviderCall (ret (time := time) (duration := duration) a).
Proof. done. Qed.

Lemma noProviderCall_lift {A} (r : result A) :
  noProviderCall (lift (time := time) (duration := duration) r).
Proof. done. Qed.

Lemma noProviderCall_bind {A B} (c : M A) (k : A → M B) :
  noProviderCall c → (∀ a, noProviderCall (k a)) → noProviderCall (bind c k).
Proof.
  unfold noProviderCall. intros Hc Hk. rewrite trace_bind, providerArgs_app, Hc.
  destruct (outcome c); [done|]. apply Hk.
Qed.

Lemma noProviderCall_onError {A} (c : M A) (h : error → error) :
  noProviderCall c → noProviderCall (onError c h).
Proof. unfold noProviderCall. by rewrite trace_onError. Qed.
End Sequencing.

(** ** The loops that fill [map[string]*Totals] *)

Lemma assignField_lookup (setField : pairs → Totals → Totals)
    (dimension : totalsMap) (toReturn : gmap string Totals) (k : string) :
  assignField setField dimension toReturn !! k =
  match dimension !! k with
  | Some total => Some (setField total (default emptyTotals (toReturn !! k)))
  | None => toReturn !! k
  end.
Proof.
  unfold assignField.
  apply (map_fold_weak_ind (λ r m, r !! k =
    match m !! k with
    | Some total => Some (setField total (default emptyTotals (toReturn !! k)))
    | None => toReturn !! k
    end)).
  - by rewrite lookup_empty.
  - intros i x m r Hi IH.
    destruct (decide (i = k)) as [->|Hne].
    + rewrite lookup_insert_eq, Hi in *.
      destruct (r !! k) as [t0|] eqn:Hr.
      * rewrite lookup_alter_eq, Hr. simpl. by rewrite <- IH.
      * rewrite lookup_alter_eq, lookup_insert_eq. simpl. by rewrite <- IH.
    + rewrite lookup_insert_ne by done.
      destruct (r !! i); rewrite lookup_alter_ne by done;
        [done | by rewrite lookup_insert_ne].
Qed.

(** ** The shaping functions *)

Section Shaping.
Context {float64 raw time duration : Type}.
Variable Sprintf_f : float64 → string.
Variable NewQueryResults : raw → result (list (QueryResult float64)).
Variable Getenv : string → string.
Variable clusterIDKey : string.

Local Abbreviation M := (M time duration).
Local Abbreviation toAppend := (toAppend Sprintf_f).
Local Abbreviation step := (resultToTotal_step (time := time) (duration := duration) Sprintf_f).
Local Abbreviation loop := (resultToTotal_loop (time := time) (duration := duration) Sprintf_f).
Local Abbreviation loopMap := (loopMap (time := time) (duration := duration) Sprintf_f).
Local Abbreviation resultToTotal :=
  (resultToTotal (time := time) (duration := duration) Sprintf_f NewQueryResults Getenv clusterIDKey).
Local Abbreviation resultToTotals :=
  (resultToTotals (time := time) (duration := duration) Sprintf_f NewQueryResults).
Local Abbreviation warnings := (warnings (time := time) (duration := duration)).

Lemma step_empty dflt (toReturn : totalsMap) (r : QueryResult float64) :
  Values r = [] → step dflt toReturn r = ([warning], inr toReturn).
Proof. intros Hv. unfold resultToTotal_step. by rewrite Hv. Qed.

Lemma step_present dflt (toReturn : totalsMap) (r : QueryResult float64) value rest t :
  Values r = value :: rest → toReturn !! clusterOf dflt r = Some t →
  step dflt toReturn r = ([], inr toReturn).
Proof.
  intros Hv Ht. unfold resultToTotal_step, clusterOf in *. by rewrite Hv, Ht.
Qed.

Lemma step_fresh dflt (toReturn : totalsMap) (r : QueryResult float64) value rest :
  Values r = value :: rest → toReturn !! clusterOf dflt r = None →
  step dflt toReturn r = ([], inr (<[clusterOf dflt r := [toAppend value]]> toReturn)).
Proof.
  intros Hv Ht. unfold resultToTotal_step, clusterOf in *. by rewrite Hv, Ht.
Qed.

(** The loop never fails; it writes one record per series without samples. *)
Lemma loop_eq dflt (results : list (QueryResult float64)) (toReturn : totalsMap) :
  loop dflt results toReturn = (warnings results, inr (loopMap dflt results toReturn)).
Proof.
  revert toReturn. induction results as [|r results IH]; intros toReturn; [done|].
  unfold loopMap, warnings. simpl resultToTotal_loop.
  destruct (Values r) as [|value rest] eqn:Hv.
  - rewrite (step_empty _ _ _ Hv). simpl bind. rewrite IH. simpl.
    rewrite filter_cons_True by (unfold noSamples; by rewrite Hv). done.
  - rewrite filter_cons_False by (unfold noSamples; by rewrite Hv).
    destruct (toReturn !! clusterOf dflt r) as [t|] eqn:Ht.
    + rewrite (step_present _ _ _ _ _ _ Hv Ht). simpl bind. by rewrite IH.
    + rewrite (step_fresh _ _ _ _ _ Hv Ht). simpl bind. by rewrite IH.
Qed.

Lemma loopMap_nil dflt (toReturn : totalsMap) : loopMap dflt [] toReturn = toReturn.
Proof. done. Qed.

Lemma loopMap_cons dflt (r : QueryResult float64) results (toReturn : totalsMap) :
  loopMap dflt (r :: results) toReturn =
  loopMap dflt results
    match Values r with
    | [] => toReturn
    | value :: _ =>
        match toReturn !! clusterOf dflt r with
        | Some _ => toReturn
        | None => <[clusterOf dflt r := [toAppend value]]> toReturn
        end
    end.
Proof.
  unfold loopMap at 1. simpl resultToTotal_loop.
  destruct (Values r) as [|value rest] eqn:Hv.
  - rewrite (step_empty _ _ _ Hv). simpl bind. by rewrite loop_eq.
  - destruct (toReturn !! clusterOf dflt r) as [t|] eqn:Ht.
    + rewrite (step_present _ _ _ _ _ _ Hv Ht). simpl bind. by rewrite loop_eq.
    + rewrite (step_fresh _ _ _ _ _ Hv Ht). simpl bind. by rewrite loop_eq.
Qed.

(** An entry, once written, is never touched again; a missing one is written
    by the first series that has samples and is filed under that key. *)
Lemma loopMap_lookup dflt (results : list (QueryResult float64)) (toReturn : totalsMap) k :
  loopMap dflt results toReturn !! k =
  match toReturn !! k with
  | Some t => Some t
  | None => (λ value, [toAppend value]) <$> firstSampleFor dflt k results
  end.
Proof.
  revert toReturn. induction results as [|r results IH]; intros toReturn.
  - rewrite loopMap_nil. by destruct (toReturn !! k).
  - rewrite loopMap_cons, IH. simpl firstSampleFor.
    destruct (Values r) as [|value rest]; [done|].
    destruct (decide (clusterOf dflt r = k)) as [<-|Hne].
    + destruct (toReturn !! clusterOf dflt r) as [t|] eqn:Ht.
      * by rewrite Ht.
      * by rewrite lookup_insert_eq.
    + destruct (toReturn !! clusterOf dflt r) as [t|]; [done|].
      by rewrite lookup_insert_ne.
Qed.

Lemma resultToTotal_eq (qr : raw) :
  resultToTotal qr =
  match NewQueryResults qr with
  | inl err => ([], inl err)
  | inr results => (warnings results, inr (loopMap (Getenv clusterIDKey) results ∅))
  end.
Proof.
  unfold resultToTotal, lift.
  destruct (NewQueryResults qr) as [err|results]; [done|].
  simpl bind. by rewrite loop_eq.
Qed.

Lemma foldl_toAppend (values : list (Vector float64)) (totals : pairs) :
  foldl (λ totals value, totals ++ [toAppend value]) totals values
  = totals ++ (toAppend <$> values).
Proof.
  revert totals. induction values as [|value values IH]; intros totals; simpl.
  - by rewrite app_nil_r.
  - by rewrite IH, <- app_assoc.
Qed.

Lemma resultToTotals_eq (qr : raw) :
  resultToTotals qr =
  match NewQueryResults qr with
  | inl err => ([], inl err)
  | inr [] => ([], inl "Not enough data available in the selected time range")
  | inr (result :: _) => ([], inr (toAppend <$> Values result))
  end.
Proof.
  unfold resultToTotals, lift.
  destruct (NewQueryResults qr) as [err|[|result rest]]; [done|done|].
  simpl. by rewrite foldl_toAppend.
Qed.
End Shaping.

Section PerCluster.
Context {float64 raw time duration : Type}.
Variable Sprintf_f : float64 → string.
Variable NewQueryResults : raw → result (list (QueryResult float64)).
Variable Getenv : string → string.
Variable clusterIDKey : string.

Local Abbreviation toAppend := (toAppend Sprintf_f).
Local Abbreviation loopMap := (loopMap (time := time) (duration := duration) Sprintf_f).
Local Abbreviation resultToTotal :=
  (resultToTotal (time := time) (duration := duration) Sprintf_f NewQueryResults Getenv clusterIDKey).
Local Abbreviation resultToTotals :=
  (resultToTotals (time := time) (duration := duration) Sprintf_f NewQueryResults).
Local Abbreviation warnings := (warnings (time := time) (duration := duration)).
Local Abbreviation warning := (warning (time := time) (duration := duration)).

Lemma loopMap_app dflt (rs1 rs2 : list (QueryResult float64)) (toReturn : totalsMap) :
  loopMap dflt (rs1 ++ rs2) toReturn = loopMap dflt rs2 (loopMap dflt rs1 toReturn).
Proof.
  revert toReturn. induction rs1 as [|r rs1 IH]; intros toReturn; [done|].
  simpl app. by rewrite !loopMap_cons, IH.
Qed.

Lemma warnings_app (rs1 rs2 : list (QueryResult float64)) :
  warnings (rs1 ++ rs2) = warnings rs1 ++ warnings rs2.
Proof. unfold warnings. by rewrite filter_app, fmap_app. Qed.

Lemma firstSampleFor_app dflt k (rs1 rs2 : list (QueryResult float64)) :
  firstSampleFor dflt k (rs1 ++ rs2) =
  match firstSampleFor dflt k rs1 with
  | Some value => Some value
  | None => firstSampleFor dflt k rs2
  end.
Proof.
  induction rs1 as [|r rs1 IH]; [done|]. simpl.
  destruct (Values r); [done|]. by destruct (decide (clusterOf dflt r = k)).
Qed.

(** Every entry of the map [resultToTotal] returns holds exactly one pair,
    however many series were filed under its key. *)
Lemma resultToTotal_entry_single (qr : raw) (m : totalsMap) k t :
  outcome (resultToTotal qr) = inr m → m !! k = Some t →
  ∃ value, t = [toAppend value].
Proof.
  rewrite resultToTotal_eq. destruct (NewQueryResults qr) as [err|results]; [done|].
  simpl. intros [= <-]. rewrite loopMap_lookup, lookup_empty.
  destruct (firstSampleFor _ k results) as [value|]; [|done].
  intros [= <-]. by exists value.
Qed.

(** A series without the label, or with the empty label, is filed under the
    default cluster; its sample is the entry when no earlier series with
    samples was filed there. *)
Lemma unlabelled_first_under_default (qr : raw) rs1 r rs2 value rest :
  NewQueryResults qr = inr (rs1 ++ r :: rs2) →
  GetString r "cluster_id" = "" → Values r = value :: rest →
  firstSampleFor (Getenv clusterIDKey) (Getenv clusterIDKey) rs1 = None →
  ∃ m, outcome (resultToTotal qr) = inr m
       ∧ m !! Getenv clusterIDKey = Some [toAppend value].
Proof.
  intros Hqr Hlabel Hv Hfirst. rewrite resultToTotal_eq, Hqr. simpl.
  eexists; split; [done|].
  rewrite loopMap_lookup, lookup_empty, firstSampleFor_app, Hfirst.
  simpl firstSampleFor. rewrite Hv. unfold clusterOf. rewrite Hlabel.
  rewrite (decide_True (P := "" = "")) by done. by rewrite decide_True.
Qed.

Lemma elem_of_warnings (results : list (QueryResult float64)) ev :
  ev ∈ warnings results → ev = warning.
Proof.
  unfold warnings. intros Hin. apply list_elem_of_fmap in Hin as (r & -> & _). done.
Qed.

(** C8, amended. In the per-cluster policy a series with zero samples
    contributes no entry to the map and does not disturb its siblings: the
    call on a result that contains such a series succeeds and returns the
    very map it returns on the same result without that series.  The skip
    leaves, in the place of the series, one record of [klog.V(1).Infof]: a
    record of info severity and verbosity 1 whose text is
    [[Warning] Metric values did not contain any valid data.].  The call
    writes no record of another severity and returns no error. *)
Theorem C8_empty_series_skipped (qr qr' : raw) rs1 r rs2 :
  NewQueryResults qr = inr (rs1 ++ r :: rs2) →
  NewQueryResults qr' = inr (rs1 ++ rs2) →
  Values r = [] →
  outcome (resultToTotal qr) = outcome (resultToTotal qr')
  ∧ (∃ m, outcome (resultToTotal qr) = inr m)
  ∧ trace (resultToTotal qr) = warnings rs1 ++ warning :: warnings rs2
  ∧ trace (resultToTotal qr') = warnings rs1 ++ warnings rs2
  ∧ warning = EvInfof 1 "[Warning] Metric values did not contain any valid data." []
  ∧ severityOf warning = Some InfoSeverity
  ∧ rendered warning = Some "[Warning] Metric values did not contain any valid data."
  ∧ (∀ ev, ev ∈ trace (resultToTotal qr) → severityOf ev = Some InfoSeverity).
Proof.
  intros Hqr Hqr' Hv. rewrite !resultToTotal_eq, Hqr, Hqr'. simpl.
  rewrite !loopMap_app, loopMap_cons, Hv, !warnings_app.
  split; [done|]. split; [by eexists|].
  assert (Hlog : warnings (r :: rs2) = warning :: warnings rs2).
  { unfold warnings.
    rewrite filter_cons_True by (unfold noSamples; by rewrite Hv). done. }
  rewrite Hlog. split; [done|]. split; [done|]. split; [done|]. split; [done|].
  split; [vm_compute; reflexivity|].
  intros ev Hin. apply elem_of_app in Hin as [Hin|Hin].
  - by rewrite (elem_of_warnings _ _ Hin).
  - apply elem_of_cons in Hin as [->|Hin]; [done|].
    by rewrite (elem_of_warnings _ _ Hin).
Qed.

(** C2, amended. In the time-series policy the output pair list holds one
    pair per sample of the first returned series, in that series' order,
    with no bucketing, deduplication or resampling; series after the first
    are not read. *)
Theorem C2_first_series_kept_in_order (qr : raw) result rest :
  NewQueryResults qr = inr (result :: rest) →
  resultToTotals qr = ([], inr (toAppend <$> Values result)).
Proof. intros Hqr. by rewrite resultToTotals_eq, Hqr. Qed.
End PerCluster.

(** ** Query strings and error messages *)

Lemma append_empty_r (s : string) : s +:+ "" = s.
Proof.
  induction s as [|c s IH]; [done|].
  change (String c (s +:+ "") = String c s). by rewrite IH.
Qed.

Lemma wrapQueryError_eq (query err : string) :
  wrapQueryError query err = "Error for query " +:+ query +:+ ": " +:+ err.
Proof.
  rewrite <- (append_empty_r err) at 2. reflexivity.
Qed.

Lemma wrapQueryError_contains (query err : string) :
  contains query (wrapQueryError query err) = true
  ∧ contains err (wrapQueryError query err) = true.
Proof.
  rewrite wrapQueryError_eq. split.
  - apply contains_inside.
  - apply contains_skip, contains_skip, contains_skip.
    rewrite <- (append_empty_r err) at 2. apply contains_here.
Qed.

Lemma rewriteOffset_nonempty (offset : string) :
  offset ≠ "" → rewriteOffset offset = "offset " +:+ offset.
Proof.
  intros Hne. unfold rewriteOffset. rewrite decide_True by done.
  rewrite <- (append_empty_r offset) at 2. reflexivity.
Qed.

Lemma length_append (s t : string) :
  String.length (s +:+ t) = String.length s + String.length t.
Proof.
  induction s as [|c s IH]; [done|].
  change (S (String.length (s +:+ t)) = S (String.length s + String.length t)).
  by rewrite IH.
Qed.

Lemma offset_keyword_changes (offset : string) : "offset " +:+ offset ≠ offset.
Proof.
  intros Heq. apply (f_equal String.length) in Heq.
  rewrite length_append in Heq. cbn in Heq. lia.
Qed.

Lemma rewriteOffset_empty : rewriteOffset "" = "".
Proof. reflexivity. Qed.

(** ** The three entry points *)

Opaque Sprintf qCores qRAM qStorage qTotal.

Section Aggregation.
Context {float64 raw time duration : Type}.
Variable Sprintf_f : float64 → string.
Variable NewQueryResults : raw → result (list (QueryResult float64)).
Variable time_Parse : string → string → result time.
Variable time_ParseDuration : string → result duration.
Variable Getenv : string → string.
Variable clusterIDKey : string.

Local Abbreviation Client := (Client time duration raw).
Local Abbreviation toAppend := (toAppend Sprintf_f).
Local Abbreviation loopMap := (loopMap (time := time) (duration := duration) Sprintf_f).
Local Abbreviation resultToTotal :=
  (resultToTotal (time := time) (duration := duration) Sprintf_f NewQueryResults Getenv clusterIDKey).
Local Abbreviation resultToTotals :=
  (resultToTotals (time := time) (duration := duration) Sprintf_f NewQueryResults).
Local Abbreviation ClusterCosts :=
  (ClusterCosts (time := time) (duration := duration) Sprintf_f NewQueryResults Getenv clusterIDKey).
Local Abbreviation ClusterCostsForAllClusters :=
  (ClusterCostsForAllClusters (time := time) (duration := duration)
     Sprintf_f NewQueryResults Getenv clusterIDKey).
Local Abbreviation ClusterCostsOverTime :=
  (ClusterCostsOverTime Sprintf_f NewQueryResults time_Parse time_ParseDuration).
Local Abbreviation fetch := (fetch NewQueryResults).
Local Abbreviation shaped := (shaped Sprintf_f NewQueryResults Getenv clusterIDKey).
Local Abbreviation shapedRange := (shapedRange Sprintf_f NewQueryResults).
Local Abbreviation defaultClusterID := (Getenv clusterIDKey).

(** What the single-total policy stores for a dimension. *)
Lemma index_loopMap (results : list (QueryResult float64)) k :
  index (loopMap defaultClusterID results ∅) k =
  match firstSampleFor defaultClusterID k results with
  | Some value => [toAppend value]
  | None => []
  end.
Proof.
  unfold index. rewrite loopMap_lookup, lookup_empty.
  by destruct (firstSampleFor _ k results).
Qed.

Lemma fetch_inr (cli : Client) query results :
  fetch cli query = inr results →
  ∃ qr, doQuery cli query = inr qr ∧ NewQueryResults qr = inr results.
Proof.
  unfold fetch. destruct (doQuery cli query) as [err|qr]; [done|]. eauto.
Qed.

Lemma shaped_fetch (cli : Client) query :
  shaped cli query =
  match fetch cli query with
  | inl err => inl err
  | inr results => inr (loopMap defaultClusterID results ∅)
  end.
Proof.
  unfold shaped, fetch.
  destruct (doQuery cli query) as [err|qr]; [done|].
  rewrite resultToTotal_eq. by destruct (NewQueryResults qr).
Qed.

(** The outcome of [ClusterCosts], step by step in program order. *)
Lemma ClusterCosts_outcome (cli : Client) (cloud : Provider) windowString offset :
  outcome (ClusterCosts cli cloud windowString offset) =
  match doGetLocalStorageQuery cloud (rewriteOffset offset) with
  | inl err => inl err
  | inr localStorageQuery =>
      let q d := dimensionQuery d windowString (rewriteOffset offset)
                   (rewriteLocalStorage localStorageQuery) in
      match doQuery cli (q Cores) with inl err => inl err | inr qrC =>
      match doQuery cli (q RAM) with inl err => inl err | inr qrR =>
      match doQuery cli (q Storage) with inl err => inl err | inr qrS =>
      match doQuery cli (q Total) with inl err => inl err | inr qrT =>
      match outcome (resultToTotal qrC) with inl err => inl err | inr coreTotal =>
      match outcome (resultToTotal qrR) with inl err => inl err | inr ramTotal =>
      match outcome (resultToTotal qrS) with inl err => inl err | inr storageTotal =>
      match outcome (resultToTotal qrT) with inl err => inl err | inr clusterTotal =>
        inr (mkTotals (index clusterTotal defaultClusterID)
                      (index coreTotal defaultClusterID)
                      (index ramTotal defaultClusterID)
                      (index storageTotal defaultClusterID))
      end end end end end end end end
  end.
Proof.
  unfold ClusterCosts. cbv zeta. cbn [dimensionQuery].
  rewrite outcome_bind, outcome_GetLocalStorageQuery.
  destruct (doGetLocalStorageQuery cloud (rewriteOffset offset)) as [err|lsq]; [done|].
  rewrite outcome_bind, outcome_Query.
  destruct (doQuery cli (qCores windowString (rewriteOffset offset))) as [?|qrC]; [done|].
  rewrite outcome_bind, outcome_Query.
  destruct (doQuery cli (qRAM windowString (rewriteOffset offset))) as [?|qrR]; [done|].
  rewrite outcome_bind, outcome_Query.
  destruct (doQuery cli (qStorage windowString (rewriteOffset offset)
                           (rewriteLocalStorage lsq))) as [?|qrS]; [done|].
  rewrite outcome_bind, outcome_Query.
  destruct (doQuery cli (qTotal (rewriteLocalStorage lsq))) as [?|qrT]; [done|].
  rewrite outcome_bind. destruct (outcome (resultToTotal qrC)) as [?|?]; [done|].
  rewrite outcome_bind. destruct (outcome (resultToTotal qrR)) as [?|?]; [done|].
  rewrite outcome_bind. destruct (outcome (resultToTotal qrS)) as [?|?]; [done|].
  rewrite outcome_bind. destruct (outcome (resultToTotal qrT)) as [?|?]; [done|].
  done.
Qed.

(** The outcome of [ClusterCostsForAllClusters], step by step. *)
Lemma ClusterCostsForAllClusters_outcome (cli : Client) (cloud : Provider)
    windowString offset :
  outcome (ClusterCostsForAllClusters cli cloud windowString offset) =
  match doGetLocalStorageQuery cloud (rewriteOffset offset) with
  | inl err => inl err
  | inr localStorageQuery =>
      let q d := dimensionQuery d windowString (rewriteOffset offset)
                   (rewriteLocalStorage localStorageQuery) in
      match doQuery cli (q Cores) with
      | inl err => inl (wrapQueryError (q Cores) err) | inr qrC =>
      match doQuery cli (q RAM) with
      | inl err => inl (wrapQueryError (q RAM) err) | inr qrR =>
      match doQuery cli (q Storage) with
      | inl err => inl (wrapQueryError (q Storage) err) | inr qrS =>
      match outcome (resultToTotal qrC) with
      | inl err => inl (wrapQueryError (q Cores) err) | inr coreTotal =>
      match outcome (resultToTotal qrR) with
      | inl err => inl (wrapQueryError (q RAM) err) | inr ramTotal =>
      match outcome (resultToTotal qrS) with
      | inl err => inl (wrapQueryError (q Storage) err) | inr storageTotal =>
        inr (assignField withStorageCost storageTotal
               (assignField withMemCost ramTotal
                  (assignField withCPUCost coreTotal ∅)))
      end end end end end end
  end.
Proof.
  unfold ClusterCostsForAllClusters. cbv zeta. cbn [dimensionQuery].
  rewrite outcome_bind, outcome_GetLocalStorageQuery.
  destruct (doGetLocalStorageQuery cloud (rewriteOffset offset)) as [err|lsq]; [done|].
  rewrite outcome_bind, outcome_Infof.
  rewrite outcome_bind, outcome_onError, outcome_Query.
  destruct (doQuery cli (qCores windowString (rewriteOffset offset))) as [?|qrC]; [done|].
  rewrite outcome_bind, outcome_Infof.
  rewrite outcome_bind, outcome_onError, outcome_Query.
  destruct (doQuery cli (qRAM windowString (rewriteOffset offset))) as [?|qrR]; [done|].
  rewrite outcome_bind, outcome_Infof.
  rewrite outcome_bind, outcome_onError, outcome_Query.
  destruct (doQuery cli (qStorage windowString (rewriteOffset offset)
                           (rewriteLocalStorage lsq))) as [?|qrS]; [done|].
  rewrite outcome_bind, outcome_onError.
  destruct (outcome (resultToTotal qrC)) as [?|?]; [done|].
  rewrite outcome_bind, outcome_onError.
  destruct (outcome (resultToTotal qrR)) as [?|?]; [done|].
  rewrite outcome_bind, outcome_onError.
  destruct (outcome (resultToTotal qrS)) as [?|?]; [done|].
  done.
Qed.

Lemma outcome_parseOrLog {A} (parsed : result A) raw_string :
  outcome (parseOrLog (time := time) (duration := duration) parsed raw_string) = parsed.
Proof. by destruct parsed. Qed.

(** The outcome of [ClusterCostsOverTime], step by step. *)
Lemma ClusterCostsOverTime_outcome (cli : Client) (cloud : Provider)
    startString endString windowString offset :
  outcome (ClusterCostsOverTime cli cloud startString endString windowString offset) =
  match doGetLocalStorageQuery cloud offset with
  | inl err => inl err
  | inr localStorageQuery =>
      match time_Parse timeLayout startString with inl err => inl err | inr start =>
      match time_Parse timeLayout endString with inl err => inl err | inr stop =>
      match time_ParseDuration windowString with inl err => inl err | inr window =>
      let run d := doQueryRange cli
                     (dimensionQuery d windowString (rewriteOffset offset)
                        (rewriteLocalStorage localStorageQuery)) start stop window in
      match run Cores with inl err => inl err | inr qrC =>
      match run RAM with inl err => inl err | inr qrR =>
      match run Storage with inl err => inl err | inr qrS =>
      match run Total with inl err => inl err | inr qrT =>
      match outcome (resultToTotals qrC) with inl err => inl err | inr coreTotal =>
      match outcome (resultToTotals qrR) with inl err => inl err | inr ramTotal =>
      match outcome (resultToTotals qrS) with inl err => inl err | inr storageTotal =>
      match outcome (resultToTotals qrT) with inl err => inl err | inr clusterTotal =>
        inr (mkTotals clusterTotal coreTotal ramTotal storageTotal)
      end end end end end end end end end end end
  end.
Proof.
  unfold ClusterCostsOverTime. cbv zeta. cbn [dimensionQuery].
  rewrite outcome_bind, outcome_GetLocalStorageQuery.
  destruct (doGetLocalStorageQuery cloud offset) as [err|lsq]; [done|].
  rewrite outcome_bind, outcome_parseOrLog.
  destruct (time_Parse timeLayout startString) as [?|start]; [done|].
  rewrite outcome_bind, outcome_parseOrLog.
  destruct (time_Parse timeLayout endString) as [?|stop]; [done|].
  rewrite outcome_bind, outcome_parseOrLog.
  destruct (time_ParseDuration windowString) as [?|window]; [done|].
  rewrite outcome_bind, outcome_QueryRange.
  destruct (doQueryRange cli (qCores windowString (rewriteOffset offset))
              start stop window) as [?|qrC]; [done|].
  rewrite outcome_bind, outcome_QueryRange.
  destruct (doQueryRange cli (qRAM windowString (rewriteOffset offset))
              start stop window) as [?|qrR]; [done|].
  rewrite outcome_bind, outcome_QueryRange.
  destruct (doQueryRange cli (qStorage windowString (rewriteOffset offset)
                                (rewriteLocalStorage lsq))
              start stop window) as [?|qrS]; [done|].
  rewrite outcome_bind, outcome_QueryRange.
  destruct (doQueryRange cli (qTotal (rewriteLocalStorage lsq))
              start stop window) as [?|qrT]; [done|].
  rewrite outcome_bind. destruct (outcome (resultToTotals qrC)) as [?|?]; [done|].
  rewrite outcome_bind. destruct (outcome (resultToTotals qrR)) as [?|?]; [done|].
  rewrite outcome_bind. destruct (outcome (resultToTotals qrS)) as [?|?]; [done|].
  rewrite outcome_bind. destruct (outcome (resultToTotals qrT)) as [?|?]; [done|].
  done.
Qed.

(** The map [ClusterCostsForAllClusters] assembles from its three
    dimensions: a cluster is present when some dimension has it, and a
    dimension that lacks the cluster leaves its field empty. *)
Lemma allClusters_lookup (coreTotal ramTotal storageTotal : totalsMap) k :
  assignField withStorageCost storageTotal
    (assignField withMemCost ramTotal
       (assignField withCPUCost coreTotal ∅)) !! k =
  match coreTotal !! k, ramTotal !! k, storageTotal !! k with
  | None, None, None => None
  | c, r, s => Some (mkTotals [] (default [] c) (default [] r) (default [] s))
  end.
Proof.
  rewrite !assignField_lookup, lookup_empty.
  by destruct (coreTotal !! k), (ramTotal !! k), (storageTotal !! k).
Qed.

Section AllSucceed.
Variables (cli : Client) (cloud : Provider).
Variables (windowString offset localStorageQuery : string).
Variable series : Dimension → list (QueryResult float64).
Hypothesis provider_ok :
  doGetLocalStorageQuery cloud (rewriteOffset offset) = inr localStorageQuery.
Hypothesis fetch_ok : ∀ d,
  fetch cli (dimensionQuery d windowString (rewriteOffset offset)
               (rewriteLocalStorage localStorageQuery)) = inr (series d).

Lemma shaped_ok d :
  ∃ qr, doQuery cli (dimensionQuery d windowString (rewriteOffset offset)
                       (rewriteLocalStorage localStorageQuery)) = inr qr
        ∧ outcome (resultToTotal qr) = inr (loopMap defaultClusterID (series d) ∅).
Proof.
  destruct (fetch_inr _ _ _ (fetch_ok d)) as (qr & Hq & Hp).
  exists qr. split; [done|]. by rewrite resultToTotal_eq, Hp.
Qed.

Lemma ClusterCosts_ok :
  outcome (ClusterCosts cli cloud windowString offset) =
  inr (mkTotals (index (loopMap defaultClusterID (series Total) ∅) defaultClusterID)
                (index (loopMap defaultClusterID (series Cores) ∅) defaultClusterID)
                (index (loopMap defaultClusterID (series RAM) ∅) defaultClusterID)
                (index (loopMap defaultClusterID (series Storage) ∅) defaultClusterID)).
Proof.
  destruct (shaped_ok Cores) as (qrC & HqC & HsC).
  destruct (shaped_ok RAM) as (qrR & HqR & HsR).
  destruct (shaped_ok Storage) as (qrS & HqS & HsS).
  destruct (shaped_ok Total) as (qrT & HqT & HsT).
  rewrite ClusterCosts_outcome, provider_ok. cbv beta zeta.
  by rewrite HqC, HqR, HqS, HqT, HsC, HsR, HsS, HsT.
Qed.

Lemma ClusterCostsForAllClusters_ok :
  outcome (ClusterCostsForAllClusters cli cloud windowString offset) =
  inr (assignField withStorageCost (loopMap defaultClusterID (series Storage) ∅)
         (assignField withMemCost (loopMap defaultClusterID (series RAM) ∅)
            (assignField withCPUCost (loopMap defaultClusterID (series Cores) ∅) ∅))).
Proof.
  destruct (shaped_ok Cores) as (qrC & HqC & HsC).
  destruct (shaped_ok RAM) as (qrR & HqR & HsR).
  destruct (shaped_ok Storage) as (qrS & HqS & HsS).
  rewrite ClusterCostsForAllClusters_outcome, provider_ok. cbv beta zeta.
  by rewrite HqC, HqR, HqS, HsC, HsR, HsS.
Qed.
End AllSucceed.

(** C3, amended. In the single-total policy, when every dimension's query
    succeeds, the field of a dimension is a one-element pair list holding
    the first sample of the first returned series that has samples and whose
    cluster_id label is absent, empty or equal to the process's default
    cluster identifier; when the dimension returned no such series the field
    is empty.  The label is not ignored. *)
Theorem C3_snapshot_field (cli : Client) (cloud : Provider)
    windowString offset localStorageQuery
    (series : Dimension → list (QueryResult float64)) :
  doGetLocalStorageQuery cloud (rewriteOffset offset) = inr localStorageQuery →
  (∀ d, fetch cli (dimensionQuery d windowString (rewriteOffset offset)
                     (rewriteLocalStorage localStorageQuery)) = inr (series d)) →
  ∃ t, outcome (ClusterCosts cli cloud windowString offset) = inr t
       ∧ ∀ d, field d t =
              match firstSampleFor defaultClusterID defaultClusterID (series d) with
              | Some value => [toAppend value]
              | None => []
              end.
Proof.
  intros Hcloud Hfetch. eexists. split.
  - by apply ClusterCosts_ok with (series := series) (localStorageQuery := localStorageQuery).
  - intros []; cbn [field TotalCost CPUCost MemCost StorageCost]; apply index_loopMap.
Qed.

(** C4, amended. When the backend returns zero series for a dimension (and
    every query succeeds), neither snapshot call fails on that account:
    [ClusterCosts] returns a [Totals] whose field for that dimension is
    empty, and [ClusterCostsForAllClusters] returns a map in which no
    cluster has a pair for that dimension. *)
Theorem C4_no_series_is_not_fatal (cli : Client) (cloud : Provider)
    windowString offset localStorageQuery
    (series : Dimension → list (QueryResult float64)) (d : Dimension) :
  doGetLocalStorageQuery cloud (rewriteOffset offset) = inr localStorageQuery →
  (∀ d, fetch cli (dimensionQuery d windowString (rewriteOffset offset)
                     (rewriteLocalStorage localStorageQuery)) = inr (series d)) →
  series d = [] →
  (∃ t, outcome (ClusterCosts cli cloud windowString offset) = inr t
        ∧ field d t = [])
  ∧ (∃ m, outcome (ClusterCostsForAllClusters cli cloud windowString offset) = inr m
          ∧ ∀ k t, m !! k = Some t → field d t = []).
Proof.
  intros Hcloud Hfetch Hnone. split.
  - eexists. split.
    + by apply ClusterCosts_ok with (series := series) (localStorageQuery := localStorageQuery).
    + destruct d; cbn [field TotalCost CPUCost MemCost StorageCost];
        by rewrite index_loopMap, Hnone.
  - eexists. split.
    + by apply ClusterCostsForAllClusters_ok
        with (series := series) (localStorageQuery := localStorageQuery).
    + intros k t. rewrite allClusters_lookup.
      assert (Hd : d ≠ Total →
                   loopMap defaultClusterID (series d) ∅ !! k = None).
      { intros _. by rewrite Hnone, loopMap_nil, lookup_empty. }
      destruct d; try specialize (Hd ltac:(done)); try rewrite Hd;
        destruct (loopMap defaultClusterID (series Cores) ∅ !! k),
                 (loopMap defaultClusterID (series RAM) ∅ !! k),
                 (loopMap defaultClusterID (series Storage) ∅ !! k);
        intros [= <-]; try done; try discriminate Hd.
Qed.

Ltac next_step H :=
  match goal with
  | |- context [match ?x with inl _ => _ | inr _ => _ end] =>
      destruct x as [?err|?v] eqn:H
  end.

(** A failing dimension in [ClusterCostsForAllClusters]: the error names the
    query and the cause. *)
Lemma ClusterCostsForAllClusters_failure (cli : Client) (cloud : Provider)
    windowString offset localStorageQuery :
  let q d := dimensionQuery d windowString (rewriteOffset offset)
               (rewriteLocalStorage localStorageQuery) in
  doGetLocalStorageQuery cloud (rewriteOffset offset) = inr localStorageQuery →
  (∃ d err, d ≠ Total ∧ shaped cli (q d) = inl err) →
  ∃ d cause, d ≠ Total ∧ shaped cli (q d) = inl cause
    ∧ outcome (ClusterCostsForAllClusters cli cloud windowString offset)
      = inl (wrapQueryError (q d) cause).
Proof.
  intros q Hcloud (d & err & Hne & Hd). subst q.
  rewrite ClusterCostsForAllClusters_outcome, Hcloud. cbv beta zeta in *.
  unfold shaped in *.
  next_step HqC. { exists Cores, err0. by rewrite HqC. }
  next_step HqR. { exists RAM, err0. by rewrite HqR. }
  next_step HqS. { exists Storage, err0. by rewrite HqS. }
  next_step HsC. { exists Cores, err0. by rewrite HqC. }
  next_step HsR. { exists RAM, err0. by rewrite HqR. }
  next_step HsS. { exists Storage, err0. by rewrite HqS. }
  destruct d; [rewrite HqC in Hd|rewrite HqR in Hd|rewrite HqS in Hd|done]; congruence.
Qed.

(** A failing dimension in [ClusterCosts]: the cause is returned as it is. *)
Lemma ClusterCosts_failure (cli : Client) (cloud : Provider)
    windowString offset localStorageQuery :
  let q d := dimensionQuery d windowString (rewriteOffset offset)
               (rewriteLocalStorage localStorageQuery) in
  doGetLocalStorageQuery cloud (rewriteOffset offset) = inr localStorageQuery →
  (∃ d err, shaped cli (q d) = inl err) →
  ∃ d cause, shaped cli (q d) = inl cause
    ∧ outcome (ClusterCosts cli cloud windowString offset) = inl cause.
Proof.
  intros q Hcloud (d & err & Hd). subst q.
  rewrite ClusterCosts_outcome, Hcloud. cbv beta zeta in *.
  unfold shaped in *.
  next_step HqC. { exists Cores, err0. by rewrite HqC. }
  next_step HqR. { exists RAM, err0. by rewrite HqR. }
  next_step HqS. { exists Storage, err0. by rewrite HqS. }
  next_step HqT. { exists Total, err0. by rewrite HqT. }
  next_step HsC. { exists Cores, err0. by rewrite HqC. }
  next_step HsR. { exists RAM, err0. by rewrite HqR. }
  next_step HsS. { exists Storage, err0. by rewrite HqS. }
  next_step HsT. { exists Total, err0. by rewrite HqT. }
  destruct d; [rewrite HqC in Hd|rewrite HqR in Hd|rewrite HqS in Hd|rewrite HqT in Hd];
    congruence.
Qed.

(** A failing dimension in [ClusterCostsOverTime]: the cause is returned as
    it is. *)
Lemma ClusterCostsOverTime_failure (cli : Client) (cloud : Provider)
    startString endString windowString offset localStorageQuery start stop window :
  let q d := dimensionQuery d windowString (rewriteOffset offset)
               (rewriteLocalStorage localStorageQuery) in
  doGetLocalStorageQuery cloud offset = inr localStorageQuery →
  time_Parse timeLayout startString = inr start →
  time_Parse timeLayout endString = inr stop →
  time_ParseDuration windowString = inr window →
  (∃ d err, shapedRange cli (q d) start stop window = inl err) →
  ∃ d cause, shapedRange cli (q d) start stop window = inl cause
    ∧ outcome (ClusterCostsOverTime cli cloud startString endString windowString offset)
      = inl cause.
Proof.
  intros q Hcloud Hstart Hstop Hwindow (d & err & Hd). subst q.
  rewrite ClusterCostsOverTime_outcome, Hcloud, Hstart, Hstop, Hwindow.
  cbv beta zeta in *. unfold shapedRange in *.
  next_step HqC. { exists Cores, err0. by rewrite HqC. }
  next_step HqR. { exists RAM, err0. by rewrite HqR. }
  next_step HqS. { exists Storage, err0. by rewrite HqS. }
  next_step HqT. { exists Total, err0. by rewrite HqT. }
  next_step HsC. { exists Cores, err0. by rewrite HqC. }
  next_step HsR. { exists RAM, err0. by rewrite HqR. }
  next_step HsS. { exists Storage, err0. by rewrite HqS. }
  next_step HsT. { exists Total, err0. by rewrite HqT. }
  destruct d; [rewrite HqC in Hd|rewrite HqR in Hd|rewrite HqS in Hd|rewrite HqT in Hd];
    congruence.
Qed.

(** C5, amended. In each of the three aggregation calls, once the cloud
    provider has answered (and, for the ranged call, the times have parsed),
    a dimension whose query execution or result shaping fails aborts the
    whole call: the call returns an error and no [Totals] or map.  Only
    [ClusterCostsForAllClusters] wraps the error, in a message that contains
    both the query text and the cause; [ClusterCosts] and
    [ClusterCostsOverTime] return the cause as it is. *)
Theorem C5_failure_aborts (cli : Client) (cloud : Provider) windowString offset :
  (∀ localStorageQuery,
     let q d := dimensionQuery d windowString (rewriteOffset offset)
                  (rewriteLocalStorage localStorageQuery) in
     doGetLocalStorageQuery cloud (rewriteOffset offset) = inr localStorageQuery →
     ((∃ d err, d ≠ Total ∧ shaped cli (q d) = inl err) →
      ∃ d cause, d ≠ Total ∧ shaped cli (q d) = inl cause
        ∧ outcome (ClusterCostsForAllClusters cli cloud windowString offset)
          = inl (wrapQueryError (q d) cause)
        ∧ contains (q d) (wrapQueryError (q d) cause) = true
        ∧ contains cause (wrapQueryError (q d) cause) = true)
     ∧ ((∃ d err, shaped cli (q d) = inl err) →
        ∃ d cause, shaped cli (q d) = inl cause
          ∧ outcome (ClusterCosts cli cloud windowString offset) = inl cause))
  ∧ (∀ localStorageQuery startString endString start stop window,
       let q d := dimensionQuery d windowString (rewriteOffset offset)
                    (rewriteLocalStorage localStorageQuery) in
       doGetLocalStorageQuery cloud offset = inr localStorageQuery →
       time_Parse timeLayout startString = inr start →
       time_Parse timeLayout endString = inr stop →
       time_ParseDuration windowString = inr window →
       (∃ d err, shapedRange cli (q d) start stop window = inl err) →
       ∃ d cause, shapedRange cli (q d) start stop window = inl cause
         ∧ outcome (ClusterCostsOverTime cli cloud startString endString
                      windowString offset) = inl cause).
Proof.
  split.
  - intros lsq q Hcloud. split.
    + intros Hfail.
      destruct (ClusterCostsForAllClusters_failure cli cloud windowString offset lsq
                  Hcloud Hfail) as (d & cause & Hne & Hd & Hout).
      exists d, cause. repeat split; try done; apply wrapQueryError_contains.
    + by apply ClusterCosts_failure.
  - intros lsq startString endString start stop window q.
    by apply ClusterCostsOverTime_failure.
Qed.

Lemma trace_parseOrLog {A} (parsed : result A) raw_string :
  trace (parseOrLog (time := time) (duration := duration) parsed raw_string) =
  match parsed with
  | inl err => [EvInfof 1 ("Error parsing time " +:+ raw_string +:+ ". Error: " +:+ err) []]
  | inr _ => []
  end.
Proof. by destruct parsed. Qed.

(** C9, amended. When the start string, the end string or the window string
    fails to parse, [ClusterCostsOverTime] returns an error without having
    issued any backend query.  The cloud provider is asked for its local
    storage query before anything is parsed: when it answers, the error
    returned is the parse error of the first of start, end and window that
    fails; when it fails, its own error is returned instead. *)
Theorem C9_parse_failure_precedes_queries (cli : Client) (cloud : Provider)
    startString endString windowString offset :
  (∃ err, time_Parse timeLayout startString = inl err
          ∨ time_Parse timeLayout endString = inl err
          ∨ time_ParseDuration windowString = inl err) →
  let call := ClusterCostsOverTime cli cloud startString endString windowString offset in
  backendCalls (trace call) = 0
  ∧ ∃ err, outcome call = inl err
      ∧ match doGetLocalStorageQuery cloud offset with
        | inl providerErr => err = providerErr
        | inr _ =>
            time_Parse timeLayout startString = inl err
            ∨ (∃ start, time_Parse timeLayout startString = inr start
                 ∧ (time_Parse timeLayout endString = inl err
                    ∨ (∃ stop, time_Parse timeLayout endString = inr stop
                         ∧ time_ParseDuration windowString = inl err)))
        end.
Proof.
  intros (perr & Hperr) call. subst call. split.
  - unfold ClusterCostsOverTime. cbv zeta.
    rewrite trace_bind, trace_GetLocalStorageQuery, outcome_GetLocalStorageQuery.
    destruct (doGetLocalStorageQuery cloud offset) as [?|lsq]; [done|].
    rewrite trace_bind, trace_parseOrLog, outcome_parseOrLog.
    destruct (time_Parse timeLayout startString) as [?|start]; [done|].
    rewrite trace_bind, trace_parseOrLog, outcome_parseOrLog.
    destruct (time_Parse timeLayout endString) as [?|stop]; [done|].
    rewrite trace_bind, trace_parseOrLog, outcome_parseOrLog.
    destruct (time_ParseDuration windowString) as [?|window]; [done|].
    by destruct Hperr as [?|[?|?]].
  - rewrite ClusterCostsOverTime_outcome.
    destruct (doGetLocalStorageQuery cloud offset) as [?|lsq]; [by eexists|].
    destruct (time_Parse timeLayout startString) as [?|start]; [by eexists; split; [|left]|].
    destruct (time_Parse timeLayout endString) as [?|stop];
      [eexists; split; [done|]; right; eauto|].
    destruct (time_ParseDuration windowString) as [?|window];
      [eexists; split; [done|]; right; eauto 6|].
    by destruct Hperr as [?|[?|?]].
Qed.

Lemma noProviderCall_resultToTotal (qr : raw) : noProviderCall (resultToTotal qr).
Proof.
  unfold noProviderCall. rewrite resultToTotal_eq.
  destruct (NewQueryResults qr) as [?|results]; [done|].
  unfold trace, warnings, providerArgs. cbn [fst].
  by induction (filter _ results).
Qed.

Lemma noProviderCall_resultToTotals (qr : raw) : noProviderCall (resultToTotals qr).
Proof.
  unfold noProviderCall. rewrite resultToTotals_eq.
  by destruct (NewQueryResults qr) as [?|[|? ?]].
Qed.

Lemma noProviderCall_parseOrLog {A} (parsed : result A) raw_string :
  noProviderCall (parseOrLog (time := time) (duration := duration) parsed raw_string).
Proof. unfold noProviderCall. rewrite trace_parseOrLog. by destruct parsed. Qed.

Ltac no_provider_call :=
  repeat first
    [ apply noProviderCall_ret
    | apply noProviderCall_Query
    | apply noProviderCall_QueryRange
    | apply noProviderCall_Infof
    | apply noProviderCall_resultToTotal
    | apply noProviderCall_resultToTotals
    | apply noProviderCall_parseOrLog
    | apply noProviderCall_onError
    | apply noProviderCall_bind; [|intros ?] ].

(** The provider is called once, first, with the offset as the entry point
    holds it at that moment. *)
Lemma ClusterCosts_providerArgs (cli : Client) (cloud : Provider) windowString offset :
  providerArgs (trace (ClusterCosts cli cloud windowString offset))
  = [rewriteOffset offset].
Proof.
  unfold ClusterCosts. cbv zeta.
  rewrite trace_bind, providerArgs_app, trace_GetLocalStorageQuery.
  destruct (outcome _) as [?|lsq]; [done|].
  change (providerArgs [EvGetLocalStorageQuery (rewriteOffset offset)])
    with [rewriteOffset offset].
  match goal with |- _ ++ providerArgs (trace ?c) = _ =>
    assert (Hquiet : noProviderCall c) by no_provider_call end.
  by rewrite Hquiet.
Qed.

Lemma ClusterCostsForAllClusters_providerArgs (cli : Client) (cloud : Provider)
    windowString offset :
  providerArgs (trace (ClusterCostsForAllClusters cli cloud windowString offset))
  = [rewriteOffset offset].
Proof.
  unfold ClusterCostsForAllClusters. cbv zeta.
  rewrite trace_bind, providerArgs_app, trace_GetLocalStorageQuery.
  destruct (outcome _) as [?|lsq]; [done|].
  change (providerArgs [EvGetLocalStorageQuery (rewriteOffset offset)])
    with [rewriteOffset offset].
  match goal with |- _ ++ providerArgs (trace ?c) = _ =>
    assert (Hquiet : noProviderCall c) by no_provider_call end.
  by rewrite Hquiet.
Qed.

Lemma ClusterCostsOverTime_providerArgs (cli : Client) (cloud : Provider)
    startString endString windowString offset :
  providerArgs (trace (ClusterCostsOverTime cli cloud startString endString
                         windowString offset))
  = [offset].
Proof.
  unfold ClusterCostsOverTime. cbv zeta.
  rewrite trace_bind, providerArgs_app, trace_GetLocalStorageQuery.
  destruct (outcome _) as [?|lsq]; [done|].
  change (providerArgs [EvGetLocalStorageQuery offset]) with [offset].
  match goal with |- _ ++ providerArgs (trace ?c) = _ =>
    assert (Hquiet : noProviderCall c) by no_provider_call end.
  by rewrite Hquiet.
Qed.

(** C10. For a non-empty offset [o], the two snapshot entry points hand the
    cloud provider's [GetLocalStorageQuery] the rewritten form
    ["offset " ++ o], the ranged entry point hands it the raw [o], and the
    two strings differ. *)
Theorem C10_provider_argument_differs (cli : Client) (cloud : Provider)
    startString endString windowString offset :
  offset ≠ "" →
  providerArgs (trace (ClusterCosts cli cloud windowString offset))
    = ["offset " +:+ offset]
  ∧ providerArgs (trace (ClusterCostsForAllClusters cli cloud windowString offset))
    = ["offset " +:+ offset]
  ∧ providerArgs (trace (ClusterCostsOverTime cli cloud startString endString
                           windowString offset))
    = [offset]
  ∧ "offset " +:+ offset ≠ offset.
Proof.
  intros Hne.
  rewrite ClusterCosts_providerArgs, ClusterCostsForAllClusters_providerArgs,
    ClusterCostsOverTime_providerArgs, (rewriteOffset_nonempty _ Hne).
  repeat split. apply offset_keyword_changes.
Qed.
End Aggregation.

Transparent Sprintf qCores qRAM qStorage qTotal.

(** ** What the four query strings contain *)


Lemma qCores_eq (windowString offset : string) :
  qCores windowString offset =
  "sum(" +:+ nl +:+ tab +:+ tab +:+
  "avg(avg_over_time(kube_node_status_capacity_cpu_cores[" +:+ windowString +:+
  "] " +:+ offset +:+
  ")) by (node, cluster_id) * avg(avg_over_time(node_cpu_hourly_cost[" +:+ windowString +:+
  "] " +:+ offset +:+
  ")) by (node, cluster_id) * 730 +" +:+ nl +:+ tab +:+ tab +:+
  "avg(avg_over_time(node_gpu_hourly_cost[" +:+ windowString +:+
  "] " +:+ offset +:+
  ")) by (node, cluster_id) * 730" +:+ nl +:+ tab +:+ "  ) by (cluster_id)".
Proof. vm_compute. reflexivity. Qed.

Lemma qRAM_eq (windowString offset : string) :
  qRAM windowString offset =
  "sum(" +:+ nl +:+ tab +:+ tab +:+
  "avg(avg_over_time(kube_node_status_capacity_memory_bytes[" +:+ windowString +:+
  "] " +:+ offset +:+
  ")) by (node, cluster_id) / 1024 / 1024 / 1024 * avg(avg_over_time(node_ram_hourly_cost["
  +:+ windowString +:+
  "] " +:+ offset +:+
  ")) by (node, cluster_id) * 730" +:+ nl +:+ tab +:+ "  ) by (cluster_id)".
Proof. vm_compute. reflexivity. Qed.

Lemma qStorage_eq (windowString offset localStorageQuery : string) :
  qStorage windowString offset localStorageQuery =
  "sum(" +:+ nl +:+ tab +:+ tab +:+
  "avg(avg_over_time(pv_hourly_cost[" +:+ windowString +:+
  "] " +:+ offset +:+
  ")) by (persistentvolume, cluster_id) * 730 " +:+ nl +:+ tab +:+ tab +:+
  "* avg(avg_over_time(kube_persistentvolume_capacity_bytes[" +:+ windowString +:+
  "] " +:+ offset +:+
  ")) by (persistentvolume, cluster_id) / 1024 / 1024 / 1024" +:+ nl +:+ tab +:+
  "  ) by (cluster_id) " +:+ localStorageQuery.
Proof.
  rewrite <- (append_empty_r localStorageQuery) at 2. vm_compute. reflexivity.
Qed.

Lemma qTotal_eq (localStorageQuery : string) :
  qTotal localStorageQuery =
  "sum(avg(node_total_hourly_cost) by (node, cluster_id)) * 730 +" +:+ nl +:+ tab +:+
  "  sum(" +:+ nl +:+ tab +:+ tab +:+
  "avg(avg_over_time(pv_hourly_cost[1h])) by (persistentvolume, cluster_id) * 730 " +:+
  nl +:+ tab +:+ tab +:+
  "* avg(avg_over_time(kube_persistentvolume_capacity_bytes[1h])) by (persistentvolume, cluster_id) / 1024 / 1024 / 1024"
  +:+ nl +:+ tab +:+ "  ) by (cluster_id) " +:+ localStorageQuery.
Proof.
  rewrite <- (append_empty_r localStorageQuery) at 2. vm_compute. reflexivity.
Qed.


(** * The claims on the mock backend *)

(** C1. The default cluster is ["cluster-one"]; a series without the label
    and a series labelled ["cluster-one"], both with samples, are filed
    under that cluster.  The entry is created by the first; the sample of
    the second is appended to a local copy of the slice only, so the entry
    the call returns holds one pair, not one pair per contributing series. *)
Theorem C1_second_series_not_appended :
  length (contributing "cluster-one" "cluster-one"
            [Mock.unlabelled [(100, 5)%Z]; Mock.series "cluster-one" [(100, 7)%Z]]) = 2
  ∧ Mock.resultToTotal Mock.sameCluster
    = ([], inr {[ "cluster-one" := [["100.000000"; "5.000000"]] ]})
  ∧ outcome (Mock.ClusterCostsForAllClusters (Mock.always (inr Mock.sameCluster))
               Mock.noLocalStorage "5m" "")
    = inr {[ "cluster-one" := mkTotals [] [["100.000000"; "5.000000"]]
                                [["100.000000"; "5.000000"]] [["100.000000"; "5.000000"]] ]}.
Proof. split; [|split]; vm_compute; reflexivity. Qed.

(** C7. The default cluster is ["cluster-one"]; a series labelled with it
    comes first and a series without the label second.  The unlabelled
    series is filed under the default key, where the entry already exists,
    and its sample [(100, 7)] is lost: it is under no key of the map. *)
Theorem C7_unlabelled_series_dropped :
  Mock.resultToTotal Mock.defaultTwice
  = ([], inr {[ "cluster-one" := [["100.000000"; "5.000000"]] ]})
  ∧ outcome (Mock.ClusterCostsForAllClusters (Mock.always (inr Mock.defaultTwice))
               Mock.noLocalStorage "5m" "")
    = inr {[ "cluster-one" := mkTotals [] [["100.000000"; "5.000000"]]
                                [["100.000000"; "5.000000"]] [["100.000000"; "5.000000"]] ]}.
Proof. split; vm_compute; reflexivity. Qed.

(** C2 does not hold as stated: of two returned series the time-series
    policy reads the first only, and the sample of the second has no pair
    in the output. *)
Lemma C2_later_series_dropped :
  ∃ results totals,
    Mock.NewQueryResults Mock.twoSeriesRange = inr results
    ∧ outcome (Mock.resultToTotals Mock.twoSeriesRange) = inr totals
    ∧ ¬ allSamplesKept Mock.Sprintf_f results totals.
Proof.
  eexists _, _. split; [reflexivity|]. split; [vm_compute; reflexivity|].
  intros Hkept.
  specialize (Hkept (Mock.series "B" [(100, 9)%Z]) (mkVector 100%Z 9%Z)).
  apply list_elem_of_In in Hkept.
  - vm_compute in Hkept. by destruct Hkept as [?|[?|[?|[]]]].
  - apply list_elem_of_In. vm_compute. auto.
  - apply list_elem_of_In. vm_compute. auto.
Qed.

Lemma C2_witness :
  Mock.resultToTotals Mock.twoSeriesRange
  = ([], inr [["100.000000"; "5.000000"]; ["160.000000"; "6.000000"];
              ["220.000000"; "7.000000"]]).
Proof.
  exact (C2_first_series_kept_in_order (time := Z) (duration := Z)
           Mock.Sprintf_f Mock.NewQueryResults Mock.twoSeriesRange
           (Mock.series "A" [(100, 5)%Z; (160, 6)%Z; (220, 7)%Z])
           [Mock.series "B" [(100, 9)%Z]] eq_refl).
Defined.

(** C3 does not hold as stated: every dimension returns one series with a
    sample, labelled ["cluster-two"], the default cluster is
    ["cluster-one"], and every field of the [Totals] is empty. *)
Lemma C3_label_not_ignored :
  Mock.Getenv Mock.clusterIDKey = "cluster-one"
  ∧ ∃ t, outcome (Mock.ClusterCosts (Mock.always (inr Mock.otherCluster))
                    Mock.noLocalStorage "5m" "") = inr t
         ∧ ∀ d, field d t = [] ∧ field d t ≠ [["100.000000"; "5.000000"]].
Proof.
  split; [reflexivity|]. eexists. split; [vm_compute; reflexivity|].
  by intros [].
Qed.

Lemma C3_witness :
  ∃ t, outcome (Mock.ClusterCosts (Mock.always (inr (Mock.Envelope Mock.mixedClusters)))
                  Mock.noLocalStorage "5m" "1h") = inr t
       ∧ ∀ d, field d t = [["100.000000"; "5.000000"]].
Proof.
  destruct (C3_snapshot_field (time := Z) (duration := Z)
              Mock.Sprintf_f Mock.NewQueryResults Mock.Getenv Mock.clusterIDKey
              (Mock.always (inr (Mock.Envelope Mock.mixedClusters)))
              Mock.noLocalStorage "5m" "1h" "" (fun _ => Mock.mixedClusters)
              eq_refl (fun _ => eq_refl)) as (t & Ht & Hfield).
  exists t. split; [exact Ht|]. intros d. rewrite Hfield. reflexivity.
Defined.

(** C4 does not hold as stated: the backend returns zero series for every
    dimension and [ClusterCosts] does not fail; it returns a [Totals] with
    empty fields. *)
Lemma C4_single_cluster_call_does_not_fail :
  (∀ query, fetch Mock.NewQueryResults (Mock.always (inr Mock.noSeries)) query = inr [])
  ∧ outcome (Mock.ClusterCosts (Mock.always (inr Mock.noSeries))
               Mock.noLocalStorage "5m" "") = inr emptyTotals
  ∧ ¬ ∃ err, outcome (Mock.ClusterCosts (Mock.always (inr Mock.noSeries))
                         Mock.noLocalStorage "5m" "") = inl err.
Proof.
  assert (Hout : outcome (Mock.ClusterCosts (Mock.always (inr Mock.noSeries))
                            Mock.noLocalStorage "5m" "") = inr emptyTotals)
    by (vm_compute; reflexivity).
  split; [done|]. split; [exact Hout|]. intros [err Herr]. congruence.
Qed.

Lemma C4_witness :
  (∃ t, outcome (Mock.ClusterCosts Mock.storageSilent Mock.noLocalStorage "5m" "1h") = inr t
        ∧ field Storage t = [])
  ∧ (∃ m, outcome (Mock.ClusterCostsForAllClusters Mock.storageSilent
                     Mock.noLocalStorage "5m" "1h") = inr m
          ∧ ∀ k t, m !! k = Some t → field Storage t = []).
Proof.
  apply (C4_no_series_is_not_fatal (time := Z) (duration := Z)
           Mock.Sprintf_f Mock.NewQueryResults Mock.Getenv Mock.clusterIDKey
           Mock.storageSilent Mock.noLocalStorage "5m" "1h" ""
           (fun d => match d with Storage => [] | _ => Mock.mixedClusters end) Storage).
  - reflexivity.
  - intros []; vm_compute; reflexivity.
  - reflexivity.
Defined.

(** C5 does not hold as stated: the answer to the cores query does not
    parse, and [ClusterCosts] returns the parser's error as it is, a message
    that does not contain the query text. *)
Lemma C5_error_without_query_text :
  let query := dimensionQuery Cores "5m" (rewriteOffset "1h") (rewriteLocalStorage "") in
  shaped Mock.Sprintf_f Mock.NewQueryResults Mock.Getenv Mock.clusterIDKey
    (time := Z) (duration := Z) (Mock.always (inr Mock.garbled)) query
  = inl "data field not found in query result"
  ∧ ∃ err, outcome (Mock.ClusterCosts (Mock.always (inr Mock.garbled))
                      Mock.noLocalStorage "5m" "1h") = inl err
           ∧ contains query err = false.
Proof.
  split; [vm_compute; reflexivity|].
  exists "data field not found in query result". split; vm_compute; reflexivity.
Qed.

Lemma C5_witness :
  let q d := dimensionQuery d "5m" (rewriteOffset "1h") (rewriteLocalStorage "") in
  (∃ d cause, d ≠ Total
     ∧ shaped Mock.Sprintf_f Mock.NewQueryResults Mock.Getenv Mock.clusterIDKey
         (time := Z) (duration := Z) Mock.memoryGarbled (q d) = inl cause
     ∧ outcome (Mock.ClusterCostsForAllClusters Mock.memoryGarbled
                  Mock.noLocalStorage "5m" "1h") = inl (wrapQueryError (q d) cause)
     ∧ contains (q d) (wrapQueryError (q d) cause) = true
     ∧ contains cause (wrapQueryError (q d) cause) = true)
  ∧ (∃ d cause,
       shaped Mock.Sprintf_f Mock.NewQueryResults Mock.Getenv Mock.clusterIDKey
         (time := Z) (duration := Z) Mock.memoryGarbled (q d) = inl cause
       ∧ outcome (Mock.ClusterCosts Mock.memoryGarbled Mock.noLocalStorage "5m" "1h")
         = inl cause)
  ∧ (∃ d cause,
       shapedRange Mock.Sprintf_f Mock.NewQueryResults Mock.memoryGarbled (q d)
         1577836800%Z 1577923200%Z 300%Z = inl cause
       ∧ outcome (Mock.ClusterCostsOverTime Mock.memoryGarbled Mock.noLocalStorage
                    "2020-01-01T00:00:00.000Z" "2020-01-02T00:00:00.000Z" "5m" "1h")
         = inl cause).
Proof.
  intros q.
  destruct (C5_failure_aborts (time := Z) (duration := Z)
              Mock.Sprintf_f Mock.NewQueryResults Mock.time_Parse Mock.time_ParseDuration
              Mock.Getenv Mock.clusterIDKey Mock.memoryGarbled Mock.noLocalStorage
              "5m" "1h") as [Hsnapshot Hranged].
  destruct (Hsnapshot "" eq_refl) as [Hall Hone].
  split; [|split].
  - apply Hall. exists RAM, "data field not found in query result".
    split; [discriminate | vm_compute; reflexivity].
  - apply Hone. exists RAM, "data field not found in query result".
    vm_compute; reflexivity.
  - apply (Hranged "" "2020-01-01T00:00:00.000Z" "2020-01-02T00:00:00.000Z"
             1577836800%Z 1577923200%Z 300%Z eq_refl eq_refl eq_refl eq_refl).
    exists RAM, "data field not found in query result". vm_compute; reflexivity.
Defined.



(** C8 does not hold as stated: the series labelled [B] has no sample, and
    the one record its skip leaves is written by [Infof], at info severity;
    the call writes no record of warning severity. *)
Lemma C8_skip_logged_at_info_severity :
  trace (Mock.resultToTotal Mock.withGap)
  = [EvInfof 1 "[Warning] Metric values did not contain any valid data." []]
  ∧ ¬ ∃ ev, ev ∈ trace (Mock.resultToTotal Mock.withGap)
            ∧ severityOf ev = Some WarningSeverity.
Proof.
  assert (Htrace : trace (Mock.resultToTotal Mock.withGap)
                   = [EvInfof 1 "[Warning] Metric values did not contain any valid data." []])
    by (vm_compute; reflexivity).
  split; [exact Htrace|]. rewrite Htrace. intros (ev & Hin & Hsev).
  apply list_elem_of_singleton in Hin as ->. discriminate Hsev.
Qed.

Lemma C8_witness :
  outcome (Mock.resultToTotal Mock.withGap) = outcome (Mock.resultToTotal Mock.withoutGap)
  ∧ (∃ m, outcome (Mock.resultToTotal Mock.withGap) = inr m)
  ∧ trace (Mock.resultToTotal Mock.withGap)
    = [EvInfof 1 "[Warning] Metric values did not contain any valid data." []]
  ∧ trace (Mock.resultToTotal Mock.withoutGap) = []
  ∧ severityOf (time := Z) (duration := Z)
      (EvInfof 1 "[Warning] Metric values did not contain any valid data." [])
    = Some InfoSeverity.
Proof.
  destruct (C8_empty_series_skipped (time := Z) (duration := Z)
              Mock.Sprintf_f Mock.NewQueryResults Mock.Getenv Mock.clusterIDKey
              Mock.withGap Mock.withoutGap
              [Mock.series "A" [(100, 5)%Z]] (Mock.series "B" [])
              [Mock.series "C" [(100, 7)%Z]] eq_refl eq_refl eq_refl)
    as (Hsame & Hok & Hlog & Hquiet & _ & Hseverity & _).
  split; [exact Hsame|]. split; [exact Hok|]. split; [exact Hlog|].
  split; [exact Hquiet | exact Hseverity].
Defined.

(** C9 does not hold as stated: the start string does not parse, the cloud
    provider fails, and the call returns the provider's error, not the
    parse error. *)
Lemma C9_provider_error_returned :
  ∃ parseErr,
    Mock.time_Parse timeLayout "yesterday" = inl parseErr
    ∧ outcome (Mock.ClusterCostsOverTime (Mock.always (inr Mock.noSeries))
                 Mock.brokenProvider "yesterday" "2020-01-02T00:00:00.000Z" "1h" "")
      = inl "local storage query unavailable"
    ∧ "local storage query unavailable" ≠ parseErr.
Proof.
  eexists. split; [vm_compute; reflexivity|]. split; [vm_compute; reflexivity|].
  discriminate.
Qed.

Lemma C9_witness :
  let call := Mock.ClusterCostsOverTime (Mock.always (inr Mock.noSeries))
                Mock.noLocalStorage "yesterday" "2020-01-02T00:00:00.000Z" "1h" "" in
  backendCalls (trace call) = 0
  ∧ ∃ err, outcome call = inl err
      ∧ (Mock.time_Parse timeLayout "yesterday" = inl err
         ∨ (∃ start, Mock.time_Parse timeLayout "yesterday" = inr start
              ∧ (Mock.time_Parse timeLayout "2020-01-02T00:00:00.000Z" = inl err
                 ∨ (∃ stop, Mock.time_Parse timeLayout "2020-01-02T00:00:00.000Z" = inr stop
                      ∧ Mock.time_ParseDuration "1h" = inl err)))).
Proof.
  apply (C9_parse_failure_precedes_queries
           Mock.Sprintf_f Mock.NewQueryResults Mock.time_Parse Mock.time_ParseDuration
           (Mock.always (inr Mock.noSeries)) Mock.noLocalStorage
           "yesterday" "2020-01-02T00:00:00.000Z" "1h" "").
  eexists. left. vm_compute. reflexivity.
Defined.

Lemma C10_witness :
  providerArgs (trace (Mock.ClusterCosts (Mock.always (inr Mock.noSeries))
                         Mock.noLocalStorage "5m" "1h")) = ["offset 1h"]
  ∧ providerArgs (trace (Mock.ClusterCostsForAllClusters (Mock.always (inr Mock.noSeries))
                           Mock.noLocalStorage "5m" "1h")) = ["offset 1h"]
  ∧ providerArgs (trace (Mock.ClusterCostsOverTime (Mock.always (inr Mock.noSeries))
                           Mock.noLocalStorage "2020-01-01T00:00:00.000Z"
                           "2020-01-02T00:00:00.000Z" "5m" "1h")) = ["1h"]
  ∧ "offset 1h" ≠ "1h".
Proof.
  apply (C10_provider_argument_differs (time := Z) (duration := Z)
           Mock.Sprintf_f Mock.NewQueryResults Mock.time_Parse Mock.time_ParseDuration
           Mock.Getenv Mock.clusterIDKey
           (Mock.always (inr Mock.noSeries)) Mock.noLocalStorage
           "2020-01-01T00:00:00.000Z" "2020-01-02T00:00:00.000Z" "5m" "1h").
  discriminate.
Defined.

(** * Further properties *)

(** ** The per-cluster and the time-series shaping *)

Section MoreShaping.
Context {float64 raw time duration : Type}.
Variable Sprintf_f : float64 → string.
Variable NewQueryResults : raw → result (list (QueryResult float64)).
Variable Getenv : string → string.
Variable clusterIDKey : string.

Local Abbreviation toAppend := (toAppend Sprintf_f).
Local Abbreviation loopMap := (loopMap (time := time) (duration := duration) Sprintf_f).
Local Abbreviation resultToTotal :=
  (resultToTotal (time := time) (duration := duration) Sprintf_f NewQueryResults Getenv clusterIDKey).
Local Abbreviation resultToTotals :=
  (resultToTotals (time := time) (duration := duration) Sprintf_f NewQueryResults).
Local Abbreviation warnings := (warnings (time := time) (duration := duration)).
Local Abbreviation defaultClusterID := (Getenv clusterIDKey).

Lemma firstSampleFor_is_Some dflt k (results : list (QueryResult float64)) :
  is_Some (firstSampleFor dflt k results)
  ↔ ∃ r, r ∈ results ∧ noSamples r = false ∧ clusterOf dflt r = k.
Proof.
  induction results as [|r results IH]; simpl.
  - split; [by intros [? ?] | intros (r & Hr & _); by apply elem_of_nil in Hr].
  - unfold noSamples at 1. destruct (Values r) as [|value rest] eqn:Hv.
    + rewrite IH. split.
      * intros (r' & Hin & Hr'). exists r'. split; [by apply list_elem_of_further | done].
      * intros (r' & Hin & Hs & Hk). apply elem_of_cons in Hin as [->|Hin].
        -- unfold noSamples in Hs. by rewrite Hv in Hs.
        -- by exists r'.
    + destruct (decide (clusterOf dflt r = k)) as [Hk|Hk].
      * split; [|by eauto]. intros _. exists r. split; [by apply list_elem_of_here|].
        unfold noSamples. by rewrite Hv.
      * rewrite IH. split.
        -- intros (r' & Hin & Hr'). exists r'. split; [by apply list_elem_of_further | done].
        -- intros (r' & Hin & Hs & Hk'). apply elem_of_cons in Hin as [->|Hin]; [done|].
           by exists r'.
Qed.

Lemma firstSampleFor_None dflt k (results : list (QueryResult float64)) :
  (∀ r, r ∈ results → noSamples r = true ∨ clusterOf dflt r ≠ k) →
  firstSampleFor dflt k results = None.
Proof.
  intros Hnone. apply eq_None_not_Some. rewrite firstSampleFor_is_Some.
  intros (r & Hin & Hs & Hk). destruct (Hnone r Hin); congruence.
Qed.

Lemma firstSampleFor_firstSampleOnly dflt k (results : list (QueryResult float64)) :
  firstSampleFor dflt k (firstSampleOnly <$> results) = firstSampleFor dflt k results.
Proof.
  induction results as [|r results IH]; [done|].
  rewrite fmap_cons. simpl firstSampleFor. rewrite IH.
  change (clusterOf dflt (firstSampleOnly r)) with (clusterOf dflt r).
  change (Values (firstSampleOnly r)) with (take 1 (Values r)).
  by destruct (Values r).
Qed.

Lemma warnings_firstSampleOnly (results : list (QueryResult float64)) :
  warnings (firstSampleOnly <$> results) = warnings results.
Proof.
  unfold warnings. induction results as [|r results IH]; [done|].
  rewrite fmap_cons.
  assert (Hsame : noSamples (firstSampleOnly r) = noSamples r).
  { unfold noSamples, firstSampleOnly. simpl. by destruct (Values r). }
  destruct (noSamples r) eqn:Hs.
  - rewrite !filter_cons_True by congruence. rewrite !fmap_cons. by f_equal.
  - rewrite !filter_cons_False by congruence. done.
Qed.

(** X1. When the answer parses, [resultToTotal] succeeds, and the map it
    returns has an entry for a key exactly when some returned series has
    samples and is filed under that key (its cluster_id label, or the
    default cluster when the label is absent or empty). *)
Theorem X1_resultToTotal_keys (qr : raw) results :
  NewQueryResults qr = inr results →
  ∃ m, outcome (resultToTotal qr) = inr m
       ∧ ∀ k, is_Some (m !! k)
              ↔ ∃ r, r ∈ results ∧ noSamples r = false
                     ∧ clusterOf defaultClusterID r = k.
Proof.
  intros Hqr. rewrite resultToTotal_eq, Hqr. eexists. split; [done|].
  intros k. rewrite loopMap_lookup, lookup_empty, fmap_is_Some.
  apply firstSampleFor_is_Some.
Qed.

(** X2. The entry of a cluster is decided by the first returned series that
    has samples and is filed under it: the entry is the one pair of that
    series' first sample, whatever series come after it. *)
Theorem X2_resultToTotal_first_series_wins (qr : raw) rs1 r rs2 value rest :
  NewQueryResults qr = inr (rs1 ++ r :: rs2) →
  Values r = value :: rest →
  (∀ r', r' ∈ rs1 →
         noSamples r' = true
         ∨ clusterOf defaultClusterID r' ≠ clusterOf defaultClusterID r) →
  ∃ m, outcome (resultToTotal qr) = inr m
       ∧ m !! clusterOf defaultClusterID r = Some [toAppend value].
Proof.
  intros Hqr Hv Hfirst. rewrite resultToTotal_eq, Hqr. eexists. split; [done|].
  rewrite loopMap_lookup, lookup_empty, firstSampleFor_app.
  rewrite (firstSampleFor_None _ _ _ Hfirst). simpl firstSampleFor.
  rewrite Hv. by rewrite decide_True.
Qed.

(** X3. [resultToTotal] reads no sample of a series beyond the first:
    cutting every series down to its first sample changes neither the map
    returned nor the records logged. *)
Theorem X3_resultToTotal_reads_first_sample_only (qr qr' : raw) results :
  NewQueryResults qr = inr results →
  NewQueryResults qr' = inr (firstSampleOnly <$> results) →
  resultToTotal qr = resultToTotal qr'.
Proof.
  intros Hqr Hqr'. rewrite !resultToTotal_eq, Hqr, Hqr'.
  rewrite warnings_firstSampleOnly. do 2 f_equal.
  apply map_eq. intros k.
  by rewrite !loopMap_lookup, !lookup_empty, firstSampleFor_firstSampleOnly.
Qed.

(** X4. When the default cluster identifier is not the empty string, the map
    [resultToTotal] returns has no entry under the empty string. *)
Theorem X4_resultToTotal_no_empty_key (qr : raw) (m : totalsMap) :
  defaultClusterID ≠ "" →
  outcome (resultToTotal qr) = inr m →
  m !! "" = None.
Proof.
  intros Hdflt. rewrite resultToTotal_eq.
  destruct (NewQueryResults qr) as [?|results]; [done|]. intros [= <-].
  rewrite loopMap_lookup, lookup_empty, firstSampleFor_None; [done|].
  intros r _. right. unfold clusterOf. by case_decide.
Qed.

(** X5. [resultToTotals] fails in two cases only: the parser's error is
    returned as it is, and an answer with no series gives the error
    [Not enough data available in the selected time range].  A first series
    without samples is not an error: the pair list is then empty.  The
    function logs nothing and calls no collaborator. *)
Theorem X5_resultToTotals_errors (qr : raw) :
  (∀ err, outcome (resultToTotals qr) = inl err
          ↔ NewQueryResults qr = inl err
            ∨ (NewQueryResults qr = inr []
               ∧ err = "Not enough data available in the selected time range"))
  ∧ (∀ r rest, NewQueryResults qr = inr (r :: rest) → Values r = [] →
               outcome (resultToTotals qr) = inr [])
  ∧ (∀ r rest totals, NewQueryResults qr = inr (r :: rest) →
               outcome (resultToTotals qr) = inr totals →
               length totals = length (Values r))
  ∧ trace (resultToTotals qr) = [].
Proof.
  rewrite resultToTotals_eq.
  destruct (NewQueryResults qr) as [perr|[|r rest]]; simpl.
  - split; [|done]. intros err. split; [intros [= <-]; by left|].
    intros [[= <-]|[? _]]; done.
  - split; [|done]. intros err. split; [intros [= <-]; by right|].
    intros [?|[_ ->]]; done.
  - split; [intros err; split; [done | by intros [?|[? _]]]|].
    split; [by intros r' rest' [= <- <-] ->|].
    split; [|done]. intros r' rest' totals [= <- <-] [= <-]. by rewrite length_fmap.
Qed.
End MoreShaping.

(** ** Formats without a verb *)

Lemma contains_percent_cons (c : ascii) (s : string) :
  contains "%" (String c s) = false →
  Ascii.eqb c "%"%char = false ∧ contains "%" s = false.
Proof.
  rewrite contains_unfold. unfold String.prefix.
  destruct (ascii_dec "%" c) as [<-|Hne].
  - by destruct s.
  - intros Hrest. split; [|done]. apply Ascii.eqb_neq. congruence.
Qed.

(** A format that holds no [%] is written as it is. *)
Lemma Sprintf_without_verb (format : string) :
  contains "%" format = false → Sprintf format [] = format.
Proof.
  induction format as [|c rest IH]; [done|].
  intros Hplain. apply contains_percent_cons in Hplain as [Hc Hrest].
  specialize (IH Hrest). destruct rest as [|d rest'].
  - reflexivity.
  - change (Sprintf (String c (String d rest')) [])
      with (if (Ascii.eqb c "%"%char && Ascii.eqb d "s"%char)%bool
            then "%!s(MISSING)" +:+ Sprintf rest' []
            else String c (Sprintf (String d rest') [])).
    rewrite Hc. cbn [andb]. by rewrite IH.
Qed.

(** ** The storage query is not the memory query *)

Lemma qStorage_ne_qCores (windowString offset localStorageQuery : string) :
  qStorage windowString offset localStorageQuery ≠ qCores windowString offset.
Proof.
  rewrite qStorage_eq, qCores_eq. intros Heq.
  apply (f_equal (String.get 25)) in Heq. vm_compute in Heq. discriminate Heq.
Qed.

Lemma qStorage_ne_qRAM (windowString offset localStorageQuery : string) :
  qStorage windowString offset localStorageQuery ≠ qRAM windowString offset.
Proof.
  rewrite qStorage_eq, qRAM_eq. intros Heq.
  apply (f_equal (String.get 25)) in Heq. vm_compute in Heq. discriminate Heq.
Qed.

(** ** Backend calls and log records of the entry points *)

Section MoreSequencing.
Context {time duration : Type}.
Local Abbreviation M := (M time duration).

Lemma backendEvents_app (t1 t2 : list (Event time duration)) :
  backendEvents (t1 ++ t2) = backendEvents t1 ++ backendEvents t2.
Proof. unfold backendEvents. apply filter_app. Qed.

Lemma backendCalls_backendEvents (t : list (Event time duration)) :
  backendCalls t = length (backendEvents t).
Proof. done. Qed.

Lemma trace_Query {raw} (cli : Client time duration raw) query :
  trace (Query cli query) = [EvQuery query].
Proof. done. Qed.

Lemma trace_QueryRange {raw} (cli : Client time duration raw) query start stop step :
  trace (QueryRange cli query start stop step) = [EvQueryRange query start stop step].
Proof. done. Qed.

Lemma trace_Infof verbosity format args :
  trace (Infof (time := time) (duration := duration) verbosity format args)
  = [EvInfof verbosity format args].
Proof. done. Qed.

Lemma noBackendCall_bind {A B} (c : M A) (k : A → M B) :
  noBackendCall c → (∀ a, noBackendCall (k a)) → noBackendCall (bind c k).
Proof.
  unfold noBackendCall. intros Hc Hk. rewrite trace_bind, backendEvents_app, Hc.
  destruct (outcome c); [done|]. apply Hk.
Qed.

Lemma noBackendCall_onError {A} (c : M A) (h : error → error) :
  noBackendCall c → noBackendCall (onError c h).
Proof. unfold noBackendCall. by rewrite trace_onError. Qed.

Lemma noBackendCall_ret {A} (a : A) :
  noBackendCall (ret (time := time) (duration := duration) a).
Proof. done. Qed.

Lemma noBackendCall_Infof verbosity format args :
  noBackendCall (Infof (time := time) (duration := duration) verbosity format args).
Proof. done. Qed.

Lemma noBackendCall_GetLocalStorageQuery (cloud : Provider) offset :
  noBackendCall (GetLocalStorageQuery (time := time) (duration := duration) cloud offset).
Proof. done. Qed.
End MoreSequencing.

Opaque Sprintf qCores qRAM qStorage qTotal.

Section MoreAggregation.
Context {float64 raw time duration : Type}.
Variable Sprintf_f : float64 → string.
Variable NewQueryResults : raw → result (list (QueryResult float64)).
Variable time_Parse : string → string → result time.
Variable time_ParseDuration : string → result duration.
Variable Getenv : string → string.
Variable clusterIDKey : string.

Local Abbreviation Client := (Client time duration raw).
Local Abbreviation toAppend := (toAppend Sprintf_f).
Local Abbreviation loopMap := (loopMap (time := time) (duration := duration) Sprintf_f).
Local Abbreviation resultToTotal :=
  (resultToTotal (time := time) (duration := duration) Sprintf_f NewQueryResults Getenv clusterIDKey).
Local Abbreviation resultToTotals :=
  (resultToTotals (time := time) (duration := duration) Sprintf_f NewQueryResults).
Local Abbreviation ClusterCosts :=
  (ClusterCosts (time := time) (duration := duration) Sprintf_f NewQueryResults Getenv clusterIDKey).
Local Abbreviation ClusterCostsForAllClusters :=
  (ClusterCostsForAllClusters (time := time) (duration := duration)
     Sprintf_f NewQueryResults Getenv clusterIDKey).
Local Abbreviation ClusterCostsOverTime :=
  (ClusterCostsOverTime Sprintf_f NewQueryResults time_Parse time_ParseDuration).
Local Abbreviation fetch := (fetch NewQueryResults).
Local Abbreviation fetchRange := (fetchRange NewQueryResults).
Local Abbreviation warnings := (warnings (time := time) (duration := duration)).
Local Abbreviation defaultClusterID := (Getenv clusterIDKey).

Lemma noBackendCall_resultToTotal (qr : raw) : noBackendCall (resultToTotal qr).
Proof.
  unfold noBackendCall. rewrite resultToTotal_eq.
  destruct (NewQueryResults qr) as [?|results]; [done|].
  unfold trace, warnings, backendEvents. cbn [fst].
  by induction (filter _ results).
Qed.

Lemma noBackendCall_resultToTotals (qr : raw) : noBackendCall (resultToTotals qr).
Proof.
  unfold noBackendCall. rewrite resultToTotals_eq.
  by destruct (NewQueryResults qr) as [?|[|? ?]].
Qed.

Lemma noBackendCall_parseOrLog {A} (parsed : result A) raw_string :
  noBackendCall (parseOrLog (time := time) (duration := duration) parsed raw_string).
Proof. unfold noBackendCall. rewrite trace_parseOrLog. by destruct parsed. Qed.

Ltac no_backend_call :=
  repeat first
    [ apply noBackendCall_ret
    | apply noBackendCall_Infof
    | apply noBackendCall_resultToTotal
    | apply noBackendCall_resultToTotals
    | apply noBackendCall_parseOrLog
    | apply noBackendCall_onError
    | apply noBackendCall_bind; [|intros ?] ].

Ltac shaping_is_quiet :=
  match goal with
  | |- context [backendEvents (trace ?c)] =>
      let Hquiet := fresh "Hquiet" in
      assert (Hquiet : noBackendCall c) by no_backend_call;
      rewrite Hquiet; clear Hquiet
  end.

(** The backend calls of [ClusterCosts], in program order. *)
Lemma ClusterCosts_backendEvents (cli : Client) (cloud : Provider) windowString offset :
  backendEvents (trace (ClusterCosts cli cloud windowString offset)) =
  match doGetLocalStorageQuery cloud (rewriteOffset offset) with
  | inl _ => []
  | inr localStorageQuery =>
      let q d := dimensionQuery d windowString (rewriteOffset offset)
                   (rewriteLocalStorage localStorageQuery) in
      EvQuery (q Cores) ::
      match doQuery cli (q Cores) with inl _ => [] | inr _ =>
      EvQuery (q RAM) ::
      match doQuery cli (q RAM) with inl _ => [] | inr _ =>
      EvQuery (q Storage) ::
      match doQuery cli (q Storage) with inl _ => [] | inr _ =>
      [EvQuery (q Total)]
      end end end
  end.
Proof.
  unfold ClusterCosts. cbv zeta. cbn [dimensionQuery].
  rewrite trace_bind, backendEvents_app, outcome_GetLocalStorageQuery.
  rewrite (noBackendCall_GetLocalStorageQuery cloud). cbn [app].
  destruct (doGetLocalStorageQuery cloud (rewriteOffset offset)) as [?|lsq]; [done|].
  rewrite trace_bind, backendEvents_app, trace_Query, outcome_Query.
  destruct (doQuery cli (qCores windowString (rewriteOffset offset))) as [?|qrC]; [done|].
  rewrite trace_bind, backendEvents_app, trace_Query, outcome_Query.
  destruct (doQuery cli (qRAM windowString (rewriteOffset offset))) as [?|qrR]; [done|].
  rewrite trace_bind, backendEvents_app, trace_Query, outcome_Query.
  destruct (doQuery cli (qStorage windowString (rewriteOffset offset)
                           (rewriteLocalStorage lsq))) as [?|qrS]; [done|].
  rewrite trace_bind, backendEvents_app, trace_Query, outcome_Query.
  destruct (doQuery cli (qTotal (rewriteLocalStorage lsq))) as [?|qrT]; [done|].
  shaping_is_quiet. done.
Qed.

(** The backend calls of [ClusterCostsForAllClusters], in program order. *)
Lemma ClusterCostsForAllClusters_backendEvents (cli : Client) (cloud : Provider)
    windowString offset :
  backendEvents (trace (ClusterCostsForAllClusters cli cloud windowString offset)) =
  match doGetLocalStorageQuery cloud (rewriteOffset offset) with
  | inl _ => []
  | inr localStorageQuery =>
      let q d := dimensionQuery d windowString (rewriteOffset offset)
                   (rewriteLocalStorage localStorageQuery) in
      EvQuery (q Cores) ::
      match doQuery cli (q Cores) with inl _ => [] | inr _ =>
      EvQuery (q RAM) ::
      match doQuery cli (q RAM) with inl _ => [] | inr _ =>
      [EvQuery (q Storage)]
      end end
  end.
Proof.
  unfold ClusterCostsForAllClusters. cbv zeta. cbn [dimensionQuery].
  rewrite trace_bind, backendEvents_app, outcome_GetLocalStorageQuery.
  rewrite (noBackendCall_GetLocalStorageQuery cloud). cbn [app].
  destruct (doGetLocalStorageQuery cloud (rewriteOffset offset)) as [?|lsq]; [done|].
  rewrite trace_bind, backendEvents_app, trace_Infof, outcome_Infof.
  rewrite trace_bind, backendEvents_app, trace_onError, outcome_onError,
    trace_Query, outcome_Query.
  destruct (doQuery cli (qCores windowString (rewriteOffset offset))) as [?|qrC]; [done|].
  rewrite trace_bind, backendEvents_app, trace_Infof, outcome_Infof.
  rewrite trace_bind, backendEvents_app, trace_onError, outcome_onError,
    trace_Query, outcome_Query.
  destruct (doQuery cli (qRAM windowString (rewriteOffset offset))) as [?|qrR]; [done|].
  rewrite trace_bind, backendEvents_app, trace_Infof, outcome_Infof.
  rewrite trace_bind, backendEvents_app, trace_onError, outcome_onError,
    trace_Query, outcome_Query.
  destruct (doQuery cli (qStorage windowString (rewriteOffset offset)
                           (rewriteLocalStorage lsq))) as [?|qrS]; [done|].
  shaping_is_quiet. done.
Qed.

(** The backend calls of [ClusterCostsOverTime], in program order. *)
Lemma ClusterCostsOverTime_backendEvents (cli : Client) (cloud : Provider)
    startString endString windowString offset :
  backendEvents (trace (ClusterCostsOverTime cli cloud startString endString
                          windowString offset)) =
  match doGetLocalStorageQuery cloud offset with
  | inl _ => []
  | inr localStorageQuery =>
      match time_Parse timeLayout startString with inl _ => [] | inr start =>
      match time_Parse timeLayout endString with inl _ => [] | inr stop =>
      match time_ParseDuration windowString with inl _ => [] | inr window =>
      let q d := dimensionQuery d windowString (rewriteOffset offset)
                   (rewriteLocalStorage localStorageQuery) in
      let run d := doQueryRange cli (q d) start stop window in
      EvQueryRange (q Cores) start stop window ::
      match run Cores with inl _ => [] | inr _ =>
      EvQueryRange (q RAM) start stop window ::
      match run RAM with inl _ => [] | inr _ =>
      EvQueryRange (q Storage) start stop window ::
      match run Storage with inl _ => [] | inr _ =>
      [EvQueryRange (q Total) start stop window]
      end end end
      end end end
  end.
Proof.
  unfold ClusterCostsOverTime. cbv zeta. cbn [dimensionQuery].
  rewrite trace_bind, backendEvents_app, outcome_GetLocalStorageQuery.
  rewrite (noBackendCall_GetLocalStorageQuery cloud). cbn [app].
  destruct (doGetLocalStorageQuery cloud offset) as [?|lsq]; [done|].
  rewrite trace_bind, backendEvents_app, outcome_parseOrLog.
  rewrite (noBackendCall_parseOrLog (time_Parse timeLayout startString)). cbn [app].
  destruct (time_Parse timeLayout startString) as [?|start]; [done|].
  rewrite trace_bind, backendEvents_app, outcome_parseOrLog.
  rewrite (noBackendCall_parseOrLog (time_Parse timeLayout endString)). cbn [app].
  destruct (time_Parse timeLayout endString) as [?|stop]; [done|].
  rewrite trace_bind, backendEvents_app, outcome_parseOrLog.
  rewrite (noBackendCall_parseOrLog (time_ParseDuration windowString)). cbn [app].
  destruct (time_ParseDuration windowString) as [?|window]; [done|].
  rewrite trace_bind, backendEvents_app, trace_QueryRange, outcome_QueryRange.
  destruct (doQueryRange cli (qCores windowString (rewriteOffset offset))
              start stop window) as [?|qrC]; [done|].
  rewrite trace_bind, backendEvents_app, trace_QueryRange, outcome_QueryRange.
  destruct (doQueryRange cli (qRAM windowString (rewriteOffset offset))
              start stop window) as [?|qrR]; [done|].
  rewrite trace_bind, backendEvents_app, trace_QueryRange, outcome_QueryRange.
  destruct (doQueryRange cli (qStorage windowString (rewriteOffset offset)
                                (rewriteLocalStorage lsq))
              start stop window) as [?|qrS]; [done|].
  rewrite trace_bind, backendEvents_app, trace_QueryRange, outcome_QueryRange.
  destruct (doQueryRange cli (qTotal (rewriteLocalStorage lsq))
              start stop window) as [?|qrT]; [done|].
  shaping_is_quiet. done.
Qed.

Ltac case_queries :=
  repeat match goal with
         | |- context [match doQuery ?c ?q with inl _ => _ | inr _ => _ end] =>
             destruct (doQuery c q) as [?|?]
         | |- context [match doQueryRange ?c ?q ?s ?e ?w with inl _ => _ | inr _ => _ end] =>
             destruct (doQueryRange c q s e w) as [?|?]
         end.

Ltac prefix_of_queries := repeat apply prefix_cons; apply prefix_nil.

(** X6. Once the cloud provider has answered, the two snapshot calls issue
    their instant queries one after the other in the order cores, memory,
    storage (and total, for [ClusterCosts] only): the queries issued are
    always a non-empty prefix of that list, a failing cores query ends the
    call after one backend call, and a call that succeeds has issued the
    whole list, once each. *)
Theorem X6_snapshot_queries_in_order (cli : Client) (cloud : Provider)
    windowString offset localStorageQuery :
  doGetLocalStorageQuery cloud (rewriteOffset offset) = inr localStorageQuery →
  let all := snapshotQueries windowString (rewriteOffset offset)
               (rewriteLocalStorage localStorageQuery) in
  let single := ClusterCosts cli cloud windowString offset in
  let every := ClusterCostsForAllClusters cli cloud windowString offset in
  (backendEvents (trace single) `prefix_of` all
   ∧ backendEvents (trace single) ≠ []
   ∧ (∀ t, outcome single = inr t → backendEvents (trace single) = all))
  ∧ (backendEvents (trace every) `prefix_of` take 3 all
     ∧ backendEvents (trace every) ≠ []
     ∧ (∀ m, outcome every = inr m → backendEvents (trace every) = take 3 all))
  ∧ (∀ err, doQuery cli (dimensionQuery Cores windowString (rewriteOffset offset)
                           (rewriteLocalStorage localStorageQuery)) = inl err →
            backendCalls (trace single) = 1 ∧ backendCalls (trace every) = 1).
Proof.
  intros Hcloud all single every. subst all single every.
  unfold snapshotQueries. cbn [fmap list_fmap take].
  rewrite !backendCalls_backendEvents.
  rewrite ClusterCosts_backendEvents, ClusterCosts_outcome,
    ClusterCostsForAllClusters_backendEvents, ClusterCostsForAllClusters_outcome, Hcloud.
  cbv beta zeta.
  split; [|split].
  - case_queries; (split; [prefix_of_queries|split; [done|]]); intros t Ht;
      done.
  - case_queries; (split; [prefix_of_queries|split; [done|]]); intros m Hm;
      done.
  - intros err Herr. rewrite Herr. done.
Qed.

(** X7. Once the cloud provider has answered and the three strings have
    parsed, the ranged call issues its range queries in the order cores,
    memory, storage, total, every one with the parsed start, end and step and
    with the rewritten offset in its text: the queries issued are a non-empty
    prefix of that list, and a call that succeeds has issued all four. *)
Theorem X7_range_queries_in_order (cli : Client) (cloud : Provider)
    startString endString windowString offset localStorageQuery start stop window :
  doGetLocalStorageQuery cloud offset = inr localStorageQuery →
  time_Parse timeLayout startString = inr start →
  time_Parse timeLayout endString = inr stop →
  time_ParseDuration windowString = inr window →
  let all := rangeQueries windowString (rewriteOffset offset)
               (rewriteLocalStorage localStorageQuery) start stop window in
  let call := ClusterCostsOverTime cli cloud startString endString windowString offset in
  backendEvents (trace call) `prefix_of` all
  ∧ backendEvents (trace call) ≠ []
  ∧ (∀ t, outcome call = inr t → backendEvents (trace call) = all).
Proof.
  intros Hcloud Hstart Hstop Hwindow all call. subst all call.
  unfold rangeQueries. cbn [fmap list_fmap].
  rewrite ClusterCostsOverTime_backendEvents, ClusterCostsOverTime_outcome,
    Hcloud, Hstart, Hstop, Hwindow.
  cbv beta zeta.
  case_queries; (split; [prefix_of_queries|split; [done|]]); intros t Ht; done.
Qed.

(** X8. When the cloud provider's [GetLocalStorageQuery] fails, each of the
    three entry points returns the provider's error as it is (unwrapped, also
    in [ClusterCostsForAllClusters]) and issues no backend query. *)
Theorem X8_provider_failure (cli : Client) (cloud : Provider)
    startString endString windowString offset err :
  (doGetLocalStorageQuery cloud (rewriteOffset offset) = inl err →
   outcome (ClusterCosts cli cloud windowString offset) = inl err
   ∧ outcome (ClusterCostsForAllClusters cli cloud windowString offset) = inl err
   ∧ backendCalls (trace (ClusterCosts cli cloud windowString offset)) = 0
   ∧ backendCalls (trace (ClusterCostsForAllClusters cli cloud windowString offset)) = 0)
  ∧ (doGetLocalStorageQuery cloud offset = inl err →
     outcome (ClusterCostsOverTime cli cloud startString endString windowString offset)
     = inl err
     ∧ backendCalls (trace (ClusterCostsOverTime cli cloud startString endString
                              windowString offset)) = 0).
Proof.
  rewrite !backendCalls_backendEvents.
  rewrite ClusterCosts_backendEvents, ClusterCosts_outcome,
    ClusterCostsForAllClusters_backendEvents, ClusterCostsForAllClusters_outcome,
    ClusterCostsOverTime_backendEvents, ClusterCostsOverTime_outcome.
  split; intros ->; done.
Qed.

Lemma index_at_most_one (qr : raw) (m : totalsMap) k :
  outcome (resultToTotal qr) = inr m → length (index m k) ≤ 1.
Proof.
  intros Hm. unfold index. destruct (m !! k) as [t|] eqn:Hk; [|simpl; lia].
  destruct (resultToTotal_entry_single _ _ _ _ _ _ _ _ Hm Hk) as [value ->].
  simpl. lia.
Qed.

Ltac case_shaping H :=
  match goal with
  | _ : context [match outcome (resultToTotal ?qr) with inl _ => _ | inr _ => _ end] |- _ =>
      destruct (outcome (resultToTotal qr)) as [?|?] eqn:H
  end.

(** X9. A snapshot call that succeeds returns at most one pair per field:
    every field of the [Totals] of [ClusterCosts], and every field of every
    [Totals] in the map of [ClusterCostsForAllClusters], holds zero or one
    pair; in the map, the [TotalCost] field is always empty. *)
Theorem X9_snapshot_fields_hold_at_most_one_pair (cli : Client) (cloud : Provider)
    windowString offset :
  (∀ t, outcome (ClusterCosts cli cloud windowString offset) = inr t →
        ∀ d, length (field d t) ≤ 1)
  ∧ (∀ m k t,
       outcome (ClusterCostsForAllClusters cli cloud windowString offset) = inr m →
       m !! k = Some t →
       TotalCost t = [] ∧ ∀ d, length (field d t) ≤ 1).
Proof.
  split.
  - intros t. rewrite ClusterCosts_outcome. cbv beta zeta.
    destruct (doGetLocalStorageQuery cloud (rewriteOffset offset)) as [?|lsq]; [done|].
    case_queries; try done. intros Ht.
    case_shaping HsC; [done|]. case_shaping HsR; [done|].
    case_shaping HsS; [done|]. case_shaping HsT; [done|].
    injection Ht as <-.
    intros []; cbn [field TotalCost CPUCost MemCost StorageCost];
      eauto using index_at_most_one.
  - intros m k t. rewrite ClusterCostsForAllClusters_outcome. cbv beta zeta.
    destruct (doGetLocalStorageQuery cloud (rewriteOffset offset)) as [?|lsq]; [done|].
    case_queries; try done. intros Hm.
    case_shaping HsC; [done|]. case_shaping HsR; [done|]. case_shaping HsS; [done|].
    injection Hm as <-. rewrite allClusters_lookup.
    pose proof (index_at_most_one _ _ k HsC) as HC.
    pose proof (index_at_most_one _ _ k HsR) as HR.
    pose proof (index_at_most_one _ _ k HsS) as HS.
    unfold index in HC, HR, HS.
    destruct (_ !! k), (_ !! k), (_ !! k); intros [= <-]; (split; [done|]);
      intros []; simpl in *; lia.
Qed.

(** X10. When every query of [ClusterCostsForAllClusters] succeeds (the
    cores, memory and storage queries: the call issues no other), a cluster
    is a key of the returned map exactly when, in some dimension, a returned
    series with samples is filed under it; its cores, memory and storage
    fields hold the first sample of the first such series of the dimension,
    and a dimension without such a series leaves its field empty. *)
Theorem X10_all_clusters_map (cli : Client) (cloud : Provider)
    windowString offset localStorageQuery
    (series : Dimension → list (QueryResult float64)) :
  doGetLocalStorageQuery cloud (rewriteOffset offset) = inr localStorageQuery →
  (∀ d, d ≠ Total →
        fetch cli (dimensionQuery d windowString (rewriteOffset offset)
                     (rewriteLocalStorage localStorageQuery)) = inr (series d)) →
  ∃ m, outcome (ClusterCostsForAllClusters cli cloud windowString offset) = inr m
       ∧ ∀ k,
           (is_Some (m !! k)
            ↔ ∃ d, d ≠ Total ∧ is_Some (firstSampleFor defaultClusterID k (series d)))
           ∧ ∀ t, m !! k = Some t →
                  ∀ d, d ≠ Total →
                       field d t =
                       match firstSampleFor defaultClusterID k (series d) with
                       | Some value => [toAppend value]
                       | None => []
                       end.
Proof.
  intros Hcloud Hfetch.
  destruct (fetch_inr _ _ _ _ (Hfetch Cores ltac:(done))) as (qrC & HqC & HpC).
  destruct (fetch_inr _ _ _ _ (Hfetch RAM ltac:(done))) as (qrR & HqR & HpR).
  destruct (fetch_inr _ _ _ _ (Hfetch Storage ltac:(done))) as (qrS & HqS & HpS).
  rewrite ClusterCostsForAllClusters_outcome, Hcloud. cbv beta zeta.
  rewrite HqC, HqR, HqS, !resultToTotal_eq, HpC, HpR, HpS.
  cbn [outcome snd]. eexists. split; [reflexivity|].
  intros k. rewrite allClusters_lookup, !loopMap_lookup, !lookup_empty.
  destruct (firstSampleFor defaultClusterID k (series Cores)) as [vC|] eqn:HC;
    destruct (firstSampleFor defaultClusterID k (series RAM)) as [vR|] eqn:HR;
    destruct (firstSampleFor defaultClusterID k (series Storage)) as [vS|] eqn:HS;
    cbn [fmap option_fmap option_map].
  all: split;
    [ split;
      [ intros Hsome;
        first [ exists Cores; by rewrite HC
              | exists RAM; by rewrite HR
              | exists Storage; by rewrite HS
              | by destruct Hsome ]
      | intros (d & Hd & Hsome); destruct d; try done;
        rewrite ?HC, ?HR, ?HS in Hsome; first [by destruct Hsome | by eexists] ]
    | intros t Ht d Hd; destruct d; try done;
      first [ injection Ht as <- | discriminate Ht ];
      by rewrite ?HC, ?HR, ?HS ].
Qed.

(** X11. The two snapshot calls agree on the default cluster: when every
    query succeeds, the cores, memory and storage fields [ClusterCosts]
    returns are those of the default cluster's entry in the map
    [ClusterCostsForAllClusters] returns, and they are empty when the map has
    no such entry. *)
Theorem X11_snapshot_calls_agree (cli : Client) (cloud : Provider)
    windowString offset localStorageQuery
    (series : Dimension → list (QueryResult float64)) :
  doGetLocalStorageQuery cloud (rewriteOffset offset) = inr localStorageQuery →
  (∀ d, fetch cli (dimensionQuery d windowString (rewriteOffset offset)
                     (rewriteLocalStorage localStorageQuery)) = inr (series d)) →
  ∃ t m, outcome (ClusterCosts cli cloud windowString offset) = inr t
         ∧ outcome (ClusterCostsForAllClusters cli cloud windowString offset) = inr m
         ∧ ∀ d, d ≠ Total →
                field d t = match m !! defaultClusterID with
                            | Some t' => field d t'
                            | None => []
                            end.
Proof.
  intros Hcloud Hfetch. eexists _, _. split; [|split].
  - by apply ClusterCosts_ok with (series := series) (localStorageQuery := localStorageQuery).
  - by apply ClusterCostsForAllClusters_ok
      with (series := series) (localStorageQuery := localStorageQuery).
  - intros d Hd. rewrite allClusters_lookup. unfold index.
    destruct (loopMap defaultClusterID (series Cores) ∅ !! defaultClusterID),
             (loopMap defaultClusterID (series RAM) ∅ !! defaultClusterID),
             (loopMap defaultClusterID (series Storage) ∅ !! defaultClusterID);
      by destruct d.
Qed.

Lemma fetchRange_inr (cli : Client) query start stop step results :
  fetchRange cli query start stop step = inr results →
  ∃ qr, doQueryRange cli query start stop step = inr qr
        ∧ NewQueryResults qr = inr results.
Proof.
  unfold fetchRange. destruct (doQueryRange cli query start stop step) as [?|qr]; [done|].
  eauto.
Qed.

Section RangedAnswers.
Variables (cli : Client) (cloud : Provider).
Variables (startString endString windowString offset localStorageQuery : string).
Variables (start stop : time) (window : duration).
Variable series : Dimension → list (QueryResult float64).
Hypothesis provider_ok : doGetLocalStorageQuery cloud offset = inr localStorageQuery.
Hypothesis start_ok : time_Parse timeLayout startString = inr start.
Hypothesis stop_ok : time_Parse timeLayout endString = inr stop.
Hypothesis window_ok : time_ParseDuration windowString = inr window.
Hypothesis fetch_ok : ∀ d,
  fetchRange cli (dimensionQuery d windowString (rewriteOffset offset)
                    (rewriteLocalStorage localStorageQuery)) start stop window
  = inr (series d).

(** The outcome of the ranged call when every query is answered and
    parsed: the first failing shaping, in the order cores, memory, storage,
    total, or the four pair lists. *)
Lemma ClusterCostsOverTime_answered :
  outcome (ClusterCostsOverTime cli cloud startString endString windowString offset) =
  match series Cores, series RAM, series Storage, series Total with
  | c :: _, r :: _, s :: _, t :: _ =>
      inr (mkTotals (toAppend <$> Values t) (toAppend <$> Values c)
                    (toAppend <$> Values r) (toAppend <$> Values s))
  | _, _, _, _ => inl "Not enough data available in the selected time range"
  end.
Proof.
  destruct (fetchRange_inr _ _ _ _ _ _ (fetch_ok Cores)) as (qrC & HqC & HpC).
  destruct (fetchRange_inr _ _ _ _ _ _ (fetch_ok RAM)) as (qrR & HqR & HpR).
  destruct (fetchRange_inr _ _ _ _ _ _ (fetch_ok Storage)) as (qrS & HqS & HpS).
  destruct (fetchRange_inr _ _ _ _ _ _ (fetch_ok Total)) as (qrT & HqT & HpT).
  rewrite ClusterCostsOverTime_outcome, provider_ok, start_ok, stop_ok, window_ok.
  cbv beta zeta. rewrite HqC, HqR, HqS, HqT.
  rewrite !resultToTotals_eq, HpC, HpR, HpS, HpT.
  by destruct (series Cores), (series RAM), (series Storage), (series Total).
Qed.
End RangedAnswers.

(** X12. When the provider answers, the three strings parse and every
    dimension's range query returns at least one series, the ranged call
    succeeds and each field of its [Totals] holds one pair per sample of the
    first series of its own dimension, in order: total, cores, memory and
    storage are filled independently. *)
Theorem X12_ranged_fields (cli : Client) (cloud : Provider)
    startString endString windowString offset localStorageQuery start stop window
    (first : Dimension → QueryResult float64)
    (others : Dimension → list (QueryResult float64)) :
  doGetLocalStorageQuery cloud offset = inr localStorageQuery →
  time_Parse timeLayout startString = inr start →
  time_Parse timeLayout endString = inr stop →
  time_ParseDuration windowString = inr window →
  (∀ d, fetchRange cli (dimensionQuery d windowString (rewriteOffset offset)
                          (rewriteLocalStorage localStorageQuery)) start stop window
        = inr (first d :: others d)) →
  ∃ t, outcome (ClusterCostsOverTime cli cloud startString endString
                  windowString offset) = inr t
       ∧ ∀ d, field d t = toAppend <$> Values (first d).
Proof.
  intros Hcloud Hstart Hstop Hwindow Hfetch.
  rewrite (ClusterCostsOverTime_answered cli cloud startString endString windowString
             offset localStorageQuery start stop window
             (fun d => first d :: others d) Hcloud Hstart Hstop Hwindow Hfetch).
  eexists. split; [done|]. by intros [].
Qed.

(** X13. When the provider answers, the three strings parse and every range
    query is answered and parsed, but some dimension returns zero series,
    the ranged call fails with the error
    [Not enough data available in the selected time range]. *)
Theorem X13_ranged_no_data (cli : Client) (cloud : Provider)
    startString endString windowString offset localStorageQuery start stop window
    (series : Dimension → list (QueryResult float64)) (d : Dimension) :
  doGetLocalStorageQuery cloud offset = inr localStorageQuery →
  time_Parse timeLayout startString = inr start →
  time_Parse timeLayout endString = inr stop →
  time_ParseDuration windowString = inr window →
  (∀ d, fetchRange cli (dimensionQuery d windowString (rewriteOffset offset)
                          (rewriteLocalStorage localStorageQuery)) start stop window
        = inr (series d)) →
  series d = [] →
  outcome (ClusterCostsOverTime cli cloud startString endString windowString offset)
  = inl "Not enough data available in the selected time range".
Proof.
  intros Hcloud Hstart Hstop Hwindow Hfetch Hnone.
  rewrite (ClusterCostsOverTime_answered cli cloud startString endString windowString
             offset localStorageQuery start stop window
             series Hcloud Hstart Hstop Hwindow Hfetch).
  destruct d; rewrite Hnone;
    by destruct (series Cores), (series RAM), (series Storage), (series Total).
Qed.

(** X14. A string that fails to parse in the ranged call leaves exactly one
    log record, after the provider call and before any query: a verbosity-1
    [Infof] record with no arguments whose format string is
    [Error parsing time ], the raw string, [. Error: ] and the parse error.
    The raw string is thus used as part of a format: the text written is
    that very string when it holds no [%], and is not promised otherwise.
    The record does not say which of start, end and window it was. *)
Theorem X14_parse_failure_is_logged (cli : Client) (cloud : Provider)
    startString endString windowString offset localStorageQuery :
  doGetLocalStorageQuery cloud offset = inr localStorageQuery →
  let call := ClusterCostsOverTime cli cloud startString endString windowString offset in
  let message raw_string err :=
    "Error parsing time " +:+ raw_string +:+ ". Error: " +:+ err in
  let record raw_string err : Event time duration :=
    EvInfof 1 (message raw_string err) [] in
  (∀ err, time_Parse timeLayout startString = inl err →
          trace call = [EvGetLocalStorageQuery offset; record startString err])
  ∧ (∀ start err,
       time_Parse timeLayout startString = inr start →
       time_Parse timeLayout endString = inl err →
       trace call = [EvGetLocalStorageQuery offset; record endString err])
  ∧ (∀ start stop err,
       time_Parse timeLayout startString = inr start →
       time_Parse timeLayout endString = inr stop →
       time_ParseDuration windowString = inl err →
       trace call = [EvGetLocalStorageQuery offset; record windowString err])
  ∧ (∀ raw_string err,
       contains "%" (message raw_string err) = false →
       rendered (record raw_string err) = Some (message raw_string err)).
Proof.
  intros Hcloud call message record. subst call message record.
  unfold ClusterCostsOverTime. cbv zeta.
  rewrite trace_bind, trace_GetLocalStorageQuery, outcome_GetLocalStorageQuery, Hcloud.
  rewrite trace_bind, trace_parseOrLog, outcome_parseOrLog.
  split; [|split; [|split]].
  - by intros err ->.
  - intros start err -> Hstop.
    by rewrite trace_bind, trace_parseOrLog, outcome_parseOrLog, Hstop.
  - intros start stop err -> Hstop Hwindow.
    rewrite trace_bind, trace_parseOrLog, outcome_parseOrLog, Hstop.
    by rewrite trace_bind, trace_parseOrLog, outcome_parseOrLog, Hwindow.
  - intros raw_string err Hplain. cbn [rendered].
    by rewrite (Sprintf_without_verb _ Hplain).
Qed.

Lemma debugArgs_app (t1 t2 : list (Event time duration)) :
  debugArgs (t1 ++ t2) = debugArgs t1 ++ debugArgs t2.
Proof. unfold debugArgs. apply omap_app. Qed.

Lemma debugArgs_warnings (results : list (QueryResult float64)) :
  debugArgs (warnings results) = [].
Proof. unfold warnings, debugArgs. by induction (filter _ results). Qed.

(** X15. The events of a [ClusterCostsForAllClusters] call whose three
    queries succeed, in order: the provider call, then for each of cores,
    memory and storage a verbosity-4 record followed by the query, then the
    warnings of the three shapings.  The record written before the storage
    query names the memory query a second time; the storage query, a
    different string, is never logged. *)
Theorem X15_all_clusters_events (cli : Client) (cloud : Provider)
    windowString offset localStorageQuery
    (series : Dimension → list (QueryResult float64)) :
  doGetLocalStorageQuery cloud (rewriteOffset offset) = inr localStorageQuery →
  (∀ d, d ≠ Total →
        fetch cli (dimensionQuery d windowString (rewriteOffset offset)
                     (rewriteLocalStorage localStorageQuery)) = inr (series d)) →
  let q d := dimensionQuery d windowString (rewriteOffset offset)
               (rewriteLocalStorage localStorageQuery) in
  let call := ClusterCostsForAllClusters cli cloud windowString offset in
  trace call =
    [EvGetLocalStorageQuery (rewriteOffset offset);
     EvInfof 4 "Running query %s" [q Cores]; EvQuery (q Cores);
     EvInfof 4 "Running query %s" [q RAM]; EvQuery (q RAM);
     EvInfof 4 "Running query %s" [q RAM]; EvQuery (q Storage)]
    ++ warnings (series Cores) ++ warnings (series RAM) ++ warnings (series Storage)
  ∧ debugArgs (trace call) = [[q Cores]; [q RAM]; [q RAM]]
  ∧ q Storage ≠ q RAM
  ∧ q Storage ≠ q Cores.
Proof.
  intros Hcloud Hfetch q call.
  destruct (fetch_inr _ _ _ _ (Hfetch Cores ltac:(done))) as (qrC & HqC & HpC).
  destruct (fetch_inr _ _ _ _ (Hfetch RAM ltac:(done))) as (qrR & HqR & HpR).
  destruct (fetch_inr _ _ _ _ (Hfetch Storage ltac:(done))) as (qrS & HqS & HpS).
  assert (Htrace : trace call =
    [EvGetLocalStorageQuery (rewriteOffset offset);
     EvInfof 4 "Running query %s" [q Cores]; EvQuery (q Cores);
     EvInfof 4 "Running query %s" [q RAM]; EvQuery (q RAM);
     EvInfof 4 "Running query %s" [q RAM]; EvQuery (q Storage)]
    ++ warnings (series Cores) ++ warnings (series RAM) ++ warnings (series Storage)).
  { subst q call. cbn [dimensionQuery] in *.
    unfold ClusterCostsForAllClusters. cbv zeta.
    rewrite trace_bind, trace_GetLocalStorageQuery, outcome_GetLocalStorageQuery, Hcloud.
    rewrite trace_bind, trace_Infof, outcome_Infof.
    rewrite trace_bind, trace_onError, outcome_onError, trace_Query, outcome_Query, HqC.
    rewrite trace_bind, trace_Infof, outcome_Infof.
    rewrite trace_bind, trace_onError, outcome_onError, trace_Query, outcome_Query, HqR.
    rewrite trace_bind, trace_Infof, outcome_Infof.
    rewrite trace_bind, trace_onError, outcome_onError, trace_Query, outcome_Query, HqS.
    rewrite trace_bind, trace_onError, outcome_onError, resultToTotal_eq, HpC.
    cbn [trace outcome fst snd].
    rewrite trace_bind, trace_onError, outcome_onError, resultToTotal_eq, HpR.
    cbn [trace outcome fst snd].
    rewrite trace_bind, trace_onError, outcome_onError, resultToTotal_eq, HpS.
    cbn [trace outcome fst snd ret app]. by rewrite app_nil_r. }
  split; [exact Htrace|]. split.
  - rewrite Htrace, !debugArgs_app, !debugArgs_warnings. done.
  - subst q. cbn [dimensionQuery].
    split; [apply qStorage_ne_qRAM | apply qStorage_ne_qCores].
Qed.
End MoreAggregation.

Transparent Sprintf qCores qRAM qStorage qTotal.

(** ** The local storage fragment *)

Lemma string_app_assoc (a b c : string) : (a +:+ b) +:+ c = a +:+ b +:+ c.
Proof.
  induction a as [|x a IH]; [done|].
  change (String x ((a +:+ b) +:+ c) = String x (a +:+ b +:+ c)). by rewrite IH.
Qed.

Lemma rewriteLocalStorage_nonempty (fragment : string) :
  fragment ≠ "" → rewriteLocalStorage fragment = "+ " +:+ fragment.
Proof.
  intros Hne. unfold rewriteLocalStorage. rewrite decide_True by done.
  rewrite <- (append_empty_r fragment) at 2. reflexivity.
Qed.

Lemma qStorage_fragment (windowString offset localStorageQuery : string) :
  qStorage windowString offset localStorageQuery
  = qStorage windowString offset "" +:+ localStorageQuery.
Proof. rewrite !qStorage_eq, !string_app_assoc. reflexivity. Qed.

Lemma qTotal_fragment (localStorageQuery : string) :
  qTotal localStorageQuery = qTotal "" +:+ localStorageQuery.
Proof. rewrite !qTotal_eq, !string_app_assoc. reflexivity. Qed.

(** X16. The provider's local storage fragment is spliced at the end of the
    storage query and of the total query as an added term: with a non-empty
    fragment each of the two queries is the query built without a fragment
    followed by [+ ] and the fragment, whatever the window and the offset;
    with the empty fragment nothing is added.  The cores and memory queries
    do not depend on the fragment. *)
Theorem X16_local_storage_fragment (windowString offset fragment : string) :
  (fragment ≠ "" →
   dimensionQuery Storage windowString offset (rewriteLocalStorage fragment)
   = dimensionQuery Storage windowString offset "" +:+ "+ " +:+ fragment
   ∧ dimensionQuery Total windowString offset (rewriteLocalStorage fragment)
     = dimensionQuery Total windowString offset "" +:+ "+ " +:+ fragment)
  ∧ rewriteLocalStorage "" = ""
  ∧ (∀ d, d = Cores ∨ d = RAM →
          dimensionQuery d windowString offset (rewriteLocalStorage fragment)
          = dimensionQuery d windowString offset "").
Proof.
  split; [|split].
  - intros Hne. cbn [dimensionQuery]. rewrite (rewriteLocalStorage_nonempty _ Hne).
    split; [apply qStorage_fragment | apply qTotal_fragment].
  - reflexivity.
  - by intros d [-> | ->].
Qed.

(** ** The further properties on the mock backend *)

Lemma X1_witness :
  ∃ m, outcome (Mock.resultToTotal Mock.withGap) = inr m
       ∧ ∀ k, is_Some (m !! k)
              ↔ ∃ r, r ∈ [Mock.series "A" [(100, 5)%Z]; Mock.series "B" [];
                          Mock.series "C" [(100, 7)%Z]]
                     ∧ noSamples r = false ∧ clusterOf "cluster-one" r = k.
Proof.
  exact (X1_resultToTotal_keys (time := Z) (duration := Z)
           Mock.Sprintf_f Mock.NewQueryResults Mock.Getenv Mock.clusterIDKey
           Mock.withGap _ eq_refl).
Defined.

Lemma X2_witness :
  ∃ m, outcome (Mock.resultToTotal Mock.withGap) = inr m
       ∧ m !! "C" = Some [["100.000000"; "7.000000"]].
Proof.
  apply (X2_resultToTotal_first_series_wins (time := Z) (duration := Z)
           Mock.Sprintf_f Mock.NewQueryResults Mock.Getenv Mock.clusterIDKey
           Mock.withGap [Mock.series "A" [(100, 5)%Z]; Mock.series "B" []]
           (Mock.series "C" [(100, 7)%Z]) [] (mkVector 100%Z 7%Z) []).
  - reflexivity.
  - reflexivity.
  - intros r' Hin. apply elem_of_cons in Hin as [->|Hin].
    + right. vm_compute. discriminate.
    + apply elem_of_cons in Hin as [->|Hin]; [by left|]. by apply elem_of_nil in Hin.
Defined.

Lemma X3_witness :
  Mock.resultToTotal Mock.twoSeriesRange
  = Mock.resultToTotal
      (Mock.Envelope [Mock.series "A" [(100, 5)%Z]; Mock.series "B" [(100, 9)%Z]]).
Proof.
  apply (X3_resultToTotal_reads_first_sample_only (time := Z) (duration := Z)
           Mock.Sprintf_f Mock.NewQueryResults Mock.Getenv Mock.clusterIDKey
           Mock.twoSeriesRange
           (Mock.Envelope [Mock.series "A" [(100, 5)%Z]; Mock.series "B" [(100, 9)%Z]])
           [Mock.series "A" [(100, 5)%Z; (160, 6)%Z; (220, 7)%Z];
            Mock.series "B" [(100, 9)%Z]]).
  - reflexivity.
  - reflexivity.
Defined.

Lemma X4_witness :
  ({[ "cluster-one" := [["100.000000"; "5.000000"]] ]} : totalsMap) !! "" = None.
Proof.
  apply (X4_resultToTotal_no_empty_key (time := Z) (duration := Z)
           Mock.Sprintf_f Mock.NewQueryResults Mock.Getenv Mock.clusterIDKey
           Mock.defaultTwice).
  - vm_compute. discriminate.
  - vm_compute. reflexivity.
Defined.

Lemma X5_witness :
  outcome (Mock.resultToTotals Mock.noSeries)
  = inl "Not enough data available in the selected time range"
  ∧ outcome (Mock.resultToTotals (Mock.Envelope [Mock.series "A" []; Mock.series "B" [(100, 9)%Z]]))
    = inr [].
Proof.
  split.
  - apply (proj1 (X5_resultToTotals_errors (time := Z) (duration := Z)
                    Mock.Sprintf_f Mock.NewQueryResults Mock.noSeries)).
    right. split; reflexivity.
  - apply (proj1 (proj2 (X5_resultToTotals_errors (time := Z) (duration := Z)
                           Mock.Sprintf_f Mock.NewQueryResults
                           (Mock.Envelope [Mock.series "A" []; Mock.series "B" [(100, 9)%Z]])))
             (Mock.series "A" []) [Mock.series "B" [(100, 9)%Z]]); reflexivity.
Defined.

Lemma X6_witness :
  backendEvents (trace (Mock.ClusterCosts (Mock.always (inr Mock.noSeries))
                          Mock.noLocalStorage "5m" "1h"))
  = snapshotQueries "5m" "offset 1h" ""
  ∧ backendEvents (trace (Mock.ClusterCostsForAllClusters (Mock.always (inr Mock.noSeries))
                            Mock.noLocalStorage "5m" "1h"))
    = take 3 (snapshotQueries "5m" "offset 1h" "").
Proof.
  destruct (X6_snapshot_queries_in_order (time := Z) (duration := Z)
              Mock.Sprintf_f Mock.NewQueryResults Mock.Getenv Mock.clusterIDKey
              (Mock.always (inr Mock.noSeries)) Mock.noLocalStorage "5m" "1h" "" eq_refl)
    as ((_ & _ & Hsingle) & (_ & _ & Hevery) & _).
  split.
  - apply (Hsingle emptyTotals). vm_compute. reflexivity.
  - apply (Hevery ∅). vm_compute. reflexivity.
Defined.

Lemma X7_witness :
  backendEvents (trace (Mock.ClusterCostsOverTime (Mock.always (inr Mock.twoSeriesRange))
                          Mock.noLocalStorage "2020-01-01T00:00:00.000Z"
                          "2020-01-02T00:00:00.000Z" "5m" "1h"))
  = rangeQueries "5m" "offset 1h" "" 1577836800%Z 1577923200%Z 300%Z.
Proof.
  destruct (X7_range_queries_in_order
              Mock.Sprintf_f Mock.NewQueryResults Mock.time_Parse Mock.time_ParseDuration
              (Mock.always (inr Mock.twoSeriesRange)) Mock.noLocalStorage
              "2020-01-01T00:00:00.000Z" "2020-01-02T00:00:00.000Z" "5m" "1h" ""
              1577836800%Z 1577923200%Z 300%Z eq_refl eq_refl eq_refl eq_refl)
    as (_ & _ & Hall).
  eapply Hall. vm_compute. reflexivity.
Defined.

Lemma X8_witness :
  outcome (Mock.ClusterCostsForAllClusters (Mock.always (inr Mock.noSeries))
             Mock.brokenProvider "5m" "1h")
  = inl "local storage query unavailable"
  ∧ backendCalls (trace (Mock.ClusterCostsOverTime (Mock.always (inr Mock.noSeries))
                           Mock.brokenProvider "2020-01-01T00:00:00.000Z"
                           "2020-01-02T00:00:00.000Z" "5m" "1h")) = 0.
Proof.
  destruct (X8_provider_failure (time := Z) (duration := Z)
              Mock.Sprintf_f Mock.NewQueryResults Mock.time_Parse Mock.time_ParseDuration
              Mock.Getenv Mock.clusterIDKey
              (Mock.always (inr Mock.noSeries)) Mock.brokenProvider
              "2020-01-01T00:00:00.000Z" "2020-01-02T00:00:00.000Z" "5m" "1h"
              "local storage query unavailable") as [Hsnapshot Hranged].
  split.
  - apply Hsnapshot. reflexivity.
  - apply Hranged. reflexivity.
Defined.

Lemma X9_witness :
  let t := mkTotals [["100.000000"; "5.000000"]] [["100.000000"; "5.000000"]]
             [["100.000000"; "5.000000"]] [["100.000000"; "5.000000"]] in
  outcome (Mock.ClusterCosts (Mock.always (inr (Mock.Envelope Mock.mixedClusters)))
             Mock.noLocalStorage "5m" "1h") = inr t
  ∧ length (field Cores t) ≤ 1 ∧ length (field Total t) ≤ 1.
Proof.
  intros t.
  assert (Ht : outcome (Mock.ClusterCosts
                          (Mock.always (inr (Mock.Envelope Mock.mixedClusters)))
                          Mock.noLocalStorage "5m" "1h") = inr t)
    by (vm_compute; reflexivity).
  split; [exact Ht|].
  split;
    apply (proj1 (X9_snapshot_fields_hold_at_most_one_pair (time := Z) (duration := Z)
                    Mock.Sprintf_f Mock.NewQueryResults Mock.Getenv Mock.clusterIDKey
                    (Mock.always (inr (Mock.Envelope Mock.mixedClusters)))
                    Mock.noLocalStorage "5m" "1h") t Ht).
Defined.

Lemma X10_witness :
  fetch Mock.NewQueryResults Mock.totalRejected
    (dimensionQuery Total "5m" (rewriteOffset "1h") (rewriteLocalStorage ""))
  = inl "total query rejected"
  ∧ ∃ m, outcome (Mock.ClusterCostsForAllClusters Mock.totalRejected
                    Mock.noLocalStorage "5m" "1h") = inr m
         ∧ is_Some (m !! "cluster-two")
         ∧ ∀ t, m !! "cluster-two" = Some t →
                field Cores t = [["100.000000"; "9.000000"]]
                ∧ field Storage t = [["100.000000"; "9.000000"]].
Proof.
  split; [vm_compute; reflexivity|].
  destruct (X10_all_clusters_map (time := Z) (duration := Z)
              Mock.Sprintf_f Mock.NewQueryResults Mock.Getenv Mock.clusterIDKey
              Mock.totalRejected Mock.noLocalStorage "5m" "1h" ""
              (fun _ => Mock.mixedClusters) eq_refl)
    as (m & Hm & Hkeys).
  { intros [] Hd; [vm_compute; reflexivity ..|by destruct Hd]. }
  exists m. split; [exact Hm|]. destruct (Hkeys "cluster-two") as [Hsome Hfields].
  split.
  - apply Hsome. exists Cores. split; [discriminate|].
    exists (mkVector 100%Z 9%Z). vm_compute. reflexivity.
  - intros t Ht. split.
    + rewrite (Hfields t Ht Cores ltac:(discriminate)). vm_compute. reflexivity.
    + rewrite (Hfields t Ht Storage ltac:(discriminate)). vm_compute. reflexivity.
Defined.

Lemma X11_witness :
  ∃ t m, outcome (Mock.ClusterCosts (Mock.always (inr (Mock.Envelope Mock.mixedClusters)))
                    Mock.noLocalStorage "5m" "1h") = inr t
         ∧ outcome (Mock.ClusterCostsForAllClusters
                      (Mock.always (inr (Mock.Envelope Mock.mixedClusters)))
                      Mock.noLocalStorage "5m" "1h") = inr m
         ∧ ∀ d, d ≠ Total →
                field d t = match m !! "cluster-one" with
                            | Some t' => field d t'
                            | None => []
                            end.
Proof.
  exact (X11_snapshot_calls_agree (time := Z) (duration := Z)
           Mock.Sprintf_f Mock.NewQueryResults Mock.Getenv Mock.clusterIDKey
           (Mock.always (inr (Mock.Envelope Mock.mixedClusters)))
           Mock.noLocalStorage "5m" "1h" "" (fun _ => Mock.mixedClusters)
           eq_refl (fun _ => eq_refl)).
Defined.

Lemma X12_witness :
  ∃ t, outcome (Mock.ClusterCostsOverTime (Mock.always (inr Mock.twoSeriesRange))
                  Mock.noLocalStorage "2020-01-01T00:00:00.000Z"
                  "2020-01-02T00:00:00.000Z" "5m" "1h") = inr t
       ∧ ∀ d, field d t = [["100.000000"; "5.000000"]; ["160.000000"; "6.000000"];
                           ["220.000000"; "7.000000"]].
Proof.
  exact (X12_ranged_fields
           Mock.Sprintf_f Mock.NewQueryResults Mock.time_Parse Mock.time_ParseDuration
           (Mock.always (inr Mock.twoSeriesRange)) Mock.noLocalStorage
           "2020-01-01T00:00:00.000Z" "2020-01-02T00:00:00.000Z" "5m" "1h" ""
           1577836800%Z 1577923200%Z 300%Z
           (fun _ => Mock.series "A" [(100, 5)%Z; (160, 6)%Z; (220, 7)%Z])
           (fun _ => [Mock.series "B" [(100, 9)%Z]])
           eq_refl eq_refl eq_refl eq_refl (fun _ => eq_refl)).
Defined.

Lemma X13_witness :
  outcome (Mock.ClusterCostsOverTime Mock.storageSilent Mock.noLocalStorage
             "2020-01-01T00:00:00.000Z" "2020-01-02T00:00:00.000Z" "5m" "1h")
  = inl "Not enough data available in the selected time range".
Proof.
  apply (X13_ranged_no_data
           Mock.Sprintf_f Mock.NewQueryResults Mock.time_Parse Mock.time_ParseDuration
           Mock.storageSilent Mock.noLocalStorage
           "2020-01-01T00:00:00.000Z" "2020-01-02T00:00:00.000Z" "5m" "1h" ""
           1577836800%Z 1577923200%Z 300%Z
           (fun d => match d with Storage => [] | _ => Mock.mixedClusters end) Storage).
  - reflexivity.
  - reflexivity.
  - reflexivity.
  - reflexivity.
  - intros []; vm_compute; reflexivity.
  - reflexivity.
Defined.

Lemma X14_witness :
  trace (Mock.ClusterCostsOverTime (Mock.always (inr Mock.noSeries)) Mock.noLocalStorage
           "yesterday" "2020-01-02T00:00:00.000Z" "5m" "1h")
  = [EvGetLocalStorageQuery "1h";
     EvInfof 1 "Error parsing time yesterday. Error: parsing time yesterday as 2006-01-02T15:04:05.000Z: cannot parse" []]
  ∧ rendered (time := Z) (duration := Z)
      (EvInfof 1 "Error parsing time yesterday. Error: parsing time yesterday as 2006-01-02T15:04:05.000Z: cannot parse" [])
    = Some "Error parsing time yesterday. Error: parsing time yesterday as 2006-01-02T15:04:05.000Z: cannot parse".
Proof.
  destruct (X14_parse_failure_is_logged
              Mock.Sprintf_f Mock.NewQueryResults Mock.time_Parse
              Mock.time_ParseDuration
              (Mock.always (inr Mock.noSeries)) Mock.noLocalStorage
              "yesterday" "2020-01-02T00:00:00.000Z" "5m" "1h" "" eq_refl)
    as (Hstart & _ & _ & Htext).
  split.
  - apply Hstart. vm_compute. reflexivity.
  - apply (Htext "yesterday"
             "parsing time yesterday as 2006-01-02T15:04:05.000Z: cannot parse").
    vm_compute. reflexivity.
Defined.

Lemma X15_witness :
  debugArgs (trace (Mock.ClusterCostsForAllClusters Mock.storageSilent
                      Mock.noLocalStorage "5m" "1h"))
  = [[qCores "5m" "offset 1h"]; [qRAM "5m" "offset 1h"]; [qRAM "5m" "offset 1h"]].
Proof.
  apply (fun Hfetch =>
           proj1 (proj2 (X15_all_clusters_events (time := Z) (duration := Z)
                   Mock.Sprintf_f Mock.NewQueryResults Mock.Getenv Mock.clusterIDKey
                   Mock.storageSilent Mock.noLocalStorage "5m" "1h" ""
                   (fun d => match d with Storage => [] | _ => Mock.mixedClusters end)
                   eq_refl Hfetch))).
  intros [] Hd; vm_compute; reflexivity.
Defined.

Lemma X16_witness :
  dimensionQuery Storage "5m" "offset 1h" "+ sum(local)"
  = dimensionQuery Storage "5m" "offset 1h" "" +:+ "+ sum(local)"
  ∧ dimensionQuery Total "5m" "offset 1h" "+ sum(local)"
    = dimensionQuery Total "5m" "offset 1h" "" +:+ "+ sum(local)".
Proof.
  apply (proj1 (X16_local_storage_fragment "5m" "offset 1h" "sum(local)")).
  discriminate.
Defined.
